(** * Weather pipeline (main_script.py): a shallow embedding and its properties

    The pipeline of [main_script.py] is a straight line of calls into external
    systems: the container runtime, the SQL engine, pandas and the console.
    Each function is embedded as a function on an explicit world state that
    returns either a value or the Python exception it raises.  The external
    systems are parameters (a scripted runtime, an engine interface) or
    documented models (pandas' [nlargest], [drop_duplicates], [to_sql]). *)

From stdpp Require Import base gmap strings list.
From Stdlib Require Import ZArith Ascii String DecimalString SpecFloat Lia.
From Stdlib Require Import Sorted Permutation.

Local Open Scope string_scope.
Local Open Scope list_scope.
Local Open Scope nat_scope.

(** ** Python values shared by all components *)

(** The exceptions that the script raises or lets through. *)
Inductive exn : Type :=
  | RuntimeError (msg : string)
  | ValueError (msg : string)
  | CalledProcessError (returncode : Z)
  | FileNotFoundError (tool : string)
  | DBAPIError (msg : string)
  | KeyError (key : Z)
  | EOFError.

(** The outcome of a call: the returned value or the raised exception. *)
Inductive result (A : Type) : Type :=
  | Ok (a : A)
  | Raise (e : exn).
Arguments Ok {A} a.
Arguments Raise {A} e.

Definition is_ok {A} (r : result A) : bool :=
  match r with Ok _ => true | Raise _ => false end.

(** [str(n)] for a non-negative integer. *)
Definition str_of_nat (n : nat) : string := NilZero.string_of_uint (Nat.to_uint n).

(** [str(z)] for an integer. *)
Definition str_of_Z (z : Z) : string :=
  match z with
  | Zneg p => "-" +:+ str_of_nat (Pos.to_nat p)
  | _ => str_of_nat (Z.to_nat z)
  end.

(** *** [str] methods used by the script

    A Python [str] is held as the bytes of its UTF-8 encoding, the form in
    which the literals of the script appear in this file. *)

Module PyStr.

(** [a in b] on strings: [a] occurs in [b] as a contiguous substring. *)
Fixpoint contains (needle hay : string) : bool :=
  if String.prefix needle hay then true
  else match hay with
       | EmptyString => false
       | String _ hay' => contains needle hay'
       end.

(** The UTF-8 encoding of a code point. *)
Definition utf8 (c : N) : string :=
  if (c <? 0x80)%N then String (ascii_of_N c) ""
  else if (c <? 0x800)%N then
    String (ascii_of_N (0xC0 + c / 0x40))
      (String (ascii_of_N (0x80 + c mod 0x40)) "")
  else if (c <? 0x10000)%N then
    String (ascii_of_N (0xE0 + c / 0x1000))
      (String (ascii_of_N (0x80 + (c / 0x40) mod 0x40))
         (String (ascii_of_N (0x80 + c mod 0x40)) ""))
  else
    String (ascii_of_N (0xF0 + c / 0x40000))
      (String (ascii_of_N (0x80 + (c / 0x1000) mod 0x40))
         (String (ascii_of_N (0x80 + (c / 0x40) mod 0x40))
            (String (ascii_of_N (0x80 + c mod 0x40)) ""))).

(** The code points for which [str.isspace] holds, which are the
    characters that [str.strip] removes: TAB..CR, FS..US, SPACE, NEL,
    NO-BREAK SPACE, OGHAM SPACE MARK, EN QUAD..HAIR SPACE, LINE and
    PARAGRAPH SEPARATOR, NARROW NO-BREAK SPACE, MEDIUM MATHEMATICAL SPACE
    and IDEOGRAPHIC SPACE. *)
Definition whitespace : list N :=
  [ 0x09; 0x0A; 0x0B; 0x0C; 0x0D; 0x1C; 0x1D; 0x1E; 0x1F; 0x20; 0x85; 0xA0;
    0x1680; 0x2000; 0x2001; 0x2002; 0x2003; 0x2004; 0x2005; 0x2006; 0x2007;
    0x2008; 0x2009; 0x200A; 0x2028; 0x2029; 0x202F; 0x205F; 0x3000 ]%N.

(** [ch.isspace()] for a string [ch] of one character. *)
Definition isspace (ch : string) : bool :=
  existsb (fun c => String.eqb ch (utf8 c)) whitespace.

(** [s.lstrip()].  A whitespace character takes one, two or three bytes,
    and no encoding of a character begins another one: the character at
    the head of [s] is whitespace exactly when one of the first three
    prefixes of [s] is. *)
Fixpoint lstrip (s : string) : string :=
  match s with
  | EmptyString => EmptyString
  | String a s1 =>
      if isspace (String a "") then lstrip s1
      else match s1 with
           | String b s2 =>
               if isspace (String a (String b "")) then lstrip s2
               else match s2 with
                    | String c s3 =>
                        if isspace (String a (String b (String c ""))) then lstrip s3
                        else s
                    | EmptyString => s
                    end
           | EmptyString => s
           end
  end.

(** [s.rstrip()].  What is left of [String c s'] is [c] before what is left
    of [s'], unless that is one whitespace character, which is then the
    last character to remove. *)
Fixpoint rstrip (s : string) : string :=
  match s with
  | EmptyString => EmptyString
  | String c s' =>
      let r := String c (rstrip s') in
      if isspace r then EmptyString else r
  end.

(** [s.strip()] *)
Definition strip (s : string) : string := rstrip (lstrip s).

Definition lower_char (c : ascii) : ascii :=
  let n := nat_of_ascii c in
  if (65 <=? n) && (n <=? 90) then ascii_of_nat (n + 32) else c.

(** [s.lower()] on the letters A..Z; the bytes of the characters outside
    ASCII are kept.  No character but Y and N has y or n in its lower case,
    so the test [answer in ('y', 'n')] does not depend on the rest of the
    mapping. *)
Fixpoint lower (s : string) : string :=
  match s with
  | EmptyString => EmptyString
  | String c s' => String (lower_char c) (lower s')
  end.

(** [s.splitlines()] restricted to the line feed separator. *)
Fixpoint splitlines_from (cur : string) (s : string) : list string :=
  match s with
  | EmptyString => if String.eqb cur "" then [] else [cur]
  | String c s' =>
      if Ascii.eqb c "010"%char then cur :: splitlines_from "" s'
      else splitlines_from (cur +:+ String c "") s'
  end.

Definition splitlines (s : string) : list string := splitlines_from "" s.

End PyStr.

(** ** Teardown Controller: [ask_user] *)

Module Teardown.

(** The console: the lines still to be typed and what was printed so far.
    [input] on an exhausted console raises [EOFError], as Python does. *)
Record Console : Type := { stdin : list string; printed : list string }.

Definition prompt : string := "Остановить и удалить контейнер? (y/n): ".
Definition error_message : string :=
  "Ошибка: введите только 'y' или 'n'. Попробуйте снова.".

(** [input(...).strip().lower()] *)
Definition normalize (line : string) : string := PyStr.lower (PyStr.strip line).

(** [answer in ('y', 'n')] *)
Definition is_answer (answer : string) : bool :=
  String.eqb answer "y" || String.eqb answer "n".

(** The [while True] loop, by recursion on the lines that remain to be read:
    each iteration prints the prompt and reads one line. *)
Fixpoint ask_user_loop (lines : list string) (out : list string)
  : result string * Console :=
  match lines with
  | [] => (Raise EOFError, {| stdin := []; printed := out ++ [prompt] |})
  | line :: rest =>
      let answer := normalize line in
      if is_answer answer
      then (Ok answer, {| stdin := rest; printed := out ++ [prompt] |})
      else ask_user_loop rest (out ++ [prompt; error_message])
  end.

Definition ask_user (c : Console) : result string * Console :=
  ask_user_loop (stdin c) (printed c).

(** What the console shows after a run of rejected responses: for each of
    them the prompt and then the error message. *)
Definition reprompts (rejected : list string) : list string :=
  flat_map (fun _ => [prompt; error_message]) rejected.

End Teardown.

(** ** Container Launcher: [launch_container] *)

Module Launcher.

(** What the function does to the outside world, in program order. *)
Inductive event : Type :=
  | WriteFile (path content : string)
  | Run (argv : list string)
  | Sleep (seconds : nat)
  | Print (msg : string).

Definition trace : Type := list event.

Definition is_run (e : event) : bool :=
  match e with Run _ => true | _ => false end.

(** How many subprocesses have been started so far. *)
Definition count_runs (t : trace) : nat := List.length (List.filter is_run t).

(** The container runtime as the script sees it through [subprocess.run]
    with [check=True]: the [n]-th subprocess started (counting from 0) with
    command line [argv] either completes with exit status 0 and the captured
    standard output, or raises [CalledProcessError] (non-zero exit status)
    or [FileNotFoundError] (no such executable). *)
Definition Runtime : Type := nat -> list string -> result string.

Definition dq : string := String (ascii_of_nat 34) "".
Definition nl : string := String (ascii_of_nat 10) "".

Fixpoint unlines (ls : list string) : string :=
  match ls with
  | [] => ""
  | l :: ls' => l +:+ nl +:+ unlines ls'
  end.

(** The f-string written to docker-compose.yml. *)
Definition docker_compose_content
    (container_name db_name db_user db_password db_port db_port_a : string) : string :=
  nl +:+ unlines [
    "    services:";
    "      postgres:";
    "        image: postgres:16";
    "        restart: always";
    "        shm_size: 1024mb";
    "        container_name: " +:+ dq +:+ container_name +:+ dq;
    "        environment:";
    "          POSTGRES_USER: " +:+ dq +:+ db_user +:+ dq;
    "          POSTGRES_PASSWORD: " +:+ dq +:+ db_password +:+ dq;
    "          POSTGRES_DB: " +:+ dq +:+ db_name +:+ dq;
    "        ports:";
    "          - " +:+ dq +:+ db_port_a +:+ ":" +:+ db_port +:+ dq;
    "        volumes:";
    "          - pg_data:/var/lib/postgresql/data";
    "";
    "    volumes:";
    "      pg_data:"
  ] +:+ "    ".

Definition compose_up_argv : list string := ["docker-compose"; "up"; "-d"].

(** The listing command of the status check, as the source spells it. *)
Definition docker_ps_argv : list string :=
  ["docker"; "ps"; "--filter"; "name=postgres_weather"; "--format"; "{{.Names}}"].

Definition msg_running (container_name : string) : string :=
  "Контейнер " +:+ container_name +:+ " запущен.".

Definition msg_not_running (container_name : string) : string :=
  "Контейнер " +:+ container_name
    +:+ " не запущен. Повторная проверка через 10 секунд.".

(** [str(e)] is not modelled beyond the exit status. *)
Definition msg_check_error (returncode : Z) : string :=
  "Ошибка при проверке состояния контейнера: " +:+ str_of_Z returncode.

Definition msg_starting : string := "Запуск контейнера Postgres через Docker Compose...".

Definition msg_waiting : string :=
  "Ожидание запуска контейнера Postgres (примерно 10 секунд)...".

Definition msg_not_started (container_name : string) : string :=
  "Контейнер " +:+ container_name +:+ " не был запущен после 3 попыток."
    +:+ nl +:+ "    Проверьте параметры запуска." +:+ nl +:+ "    ".

(** One pass through the body of the [while] loop ends the function or
    goes round again with a new [retry_count]. *)
Inductive step (A : Type) : Type :=
  | Done (r : result A)
  | Again (retry_count : nat).
Arguments Done {A} r.
Arguments Again {A} retry_count.

Section WithRuntime.

Variable runtime : Runtime.

(** [subprocess.run(argv, check=True)] *)
Definition subprocess_run (argv : list string) (t : trace) : result string * trace :=
  (runtime (count_runs t) argv, t ++ [Run argv]).

(** The body of [while retry_count <= 2]: the [try] block with its
    [except subprocess.CalledProcessError] handler. *)
Definition poll_body (container_name : string) (retry_count : nat) (t : trace)
  : step string * trace :=
  match subprocess_run docker_ps_argv t with
  | (Ok stdout, t1) =>
      if PyStr.contains container_name stdout
      then (Done (Ok "Success"), t1 ++ [Print (msg_running container_name)])
      else (Again (retry_count + 1),
            t1 ++ [Print (msg_not_running container_name); Sleep 10])
  | (Raise (CalledProcessError rc), t1) =>
      (Again retry_count, t1 ++ [Print (msg_check_error rc)])
  | (Raise e, t1) => (Done (Raise e), t1)
  end.

(** The [while] loop followed by the final [raise].  [fuel] bounds the
    number of passes through the body; [None] means the loop is still
    running when the fuel is used up. *)
Fixpoint poll (fuel : nat) (container_name : string) (retry_count : nat) (t : trace)
  : option (result string * trace) :=
  if retry_count <=? 2 then
    match fuel with
    | 0 => None
    | S fuel' =>
        match poll_body container_name retry_count t with
        | (Done r, t') => Some (r, t')
        | (Again retry_count', t') => poll fuel' container_name retry_count' t'
        end
    end
  else Some (Raise (RuntimeError (msg_not_started container_name)), t).

Definition launch_container (fuel : nat)
    (container_name db_name db_user db_password db_port db_port_a : string)
    (t : trace) : option (result string * trace) :=
  let retry_count := 0 in
  let content :=
    docker_compose_content container_name db_name db_user db_password db_port db_port_a in
  let t1 := t ++ [WriteFile "docker-compose.yml" content; Print msg_starting] in
  match subprocess_run compose_up_argv t1 with
  | (Raise e, t2) => Some (Raise e, t2)
  | (Ok _, t2) =>
      let t3 := t2 ++ [Print msg_waiting; Sleep 10] in
      poll fuel container_name retry_count t3
  end.

End WithRuntime.

(** The status checks among the subprocesses of a trace. *)
Definition is_check (e : event) : bool :=
  match e with
  | Run argv => bool_decide (argv = docker_ps_argv)
  | _ => false
  end.

Definition count_checks (t : trace) : nat := List.length (List.filter is_check t).

(** The result of a status check shows the name / does not show it. *)
Definition shows (container_name : string) (r : result string) : bool :=
  match r with
  | Ok stdout => PyStr.contains container_name stdout
  | Raise _ => false
  end.

Definition misses (container_name : string) (r : result string) : bool :=
  match r with
  | Ok stdout => negb (PyStr.contains container_name stdout)
  | Raise _ => false
  end.

(** The result of a status check lets the loop go on: the listing lacks the
    name, or the command exited with a non-zero status. *)
Definition not_yet (container_name : string) (r : result string) : bool :=
  match r with
  | Ok stdout => negb (PyStr.contains container_name stdout)
  | Raise (CalledProcessError _) => true
  | Raise _ => false
  end.

(** *** Scripted runtimes *)

(** The service comes up and the listing shows [names] from the check
    numbered [ready] on; before that the listing is empty. *)
Definition runtime_ready_at (ready : nat) (names : string) : Runtime :=
  fun n argv =>
    if bool_decide (argv = docker_ps_argv)
    then if ready <=? n then Ok names else Ok ""
    else Ok "".

(** Every listing command exits with a non-zero status (daemon down). *)
Definition runtime_daemon_down : Runtime :=
  fun n argv =>
    if bool_decide (argv = docker_ps_argv) then Raise (CalledProcessError 1) else Ok "".

(** The [docker] executable is missing. *)
Definition runtime_no_docker : Runtime :=
  fun n argv =>
    if bool_decide (argv = docker_ps_argv) then Raise (FileNotFoundError "docker") else Ok "".

End Launcher.

(** ** The Weather Table: a pandas DataFrame *)

Module Frame.

(** A float cell is an IEEE 754 binary64 value; a missing value is NaN. *)
Definition float : Type := spec_float.
Definition NaN : float := S754_nan.

(** The float that an integer literal denotes. *)
Definition float_of_Z (z : Z) : float := binary_normalize 53 1024 z 0 false.

Definition isna (x : float) : bool :=
  match x with S754_nan => true | _ => false end.

Inductive Month : Type :=
  | Jan | Feb | Mar | Apr | May | Jun | Jul | Aug | Sep | Oct | Nov | Dec.

Definition month_number (m : Month) : Z :=
  match m with
  | Jan => 1 | Feb => 2 | Mar => 3 | Apr => 4 | May => 5 | Jun => 6
  | Jul => 7 | Aug => 8 | Sep => 9 | Oct => 10 | Nov => 11 | Dec => 12
  end%Z.

(** A pandas [Timestamp] in UTC: the calendar date and the second of the
    day.  Two timestamps are the same instant iff they are equal. *)
Record Timestamp : Type :=
  { year : nat; month : Month; day : nat; second_of_day : nat }.

#[global] Instance Month_eq_dec : EqDecision Month.
Proof. solve_decision. Defined.

#[global] Instance Timestamp_eq_dec : EqDecision Timestamp.
Proof. solve_decision. Defined.

(** One observation; [D] is the type of the cells of the date column. *)
Record Row (D : Type) : Type :=
  { date : D;
    weather_code : float;
    temperature_2m_max : float;
    temperature_2m_min : float;
    apparent_temperature_max : float;
    apparent_temperature_min : float;
    wind_speed_10m_max : float }.
Arguments date {D} _.
Arguments weather_code {D} _.
Arguments temperature_2m_max {D} _.
Arguments temperature_2m_min {D} _.
Arguments apparent_temperature_max {D} _.
Arguments apparent_temperature_min {D} _.
Arguments wind_speed_10m_max {D} _.

(** [row['date'] = d] *)
Definition with_date {D E : Type} (r : Row D) (d : E) : Row E :=
  {| date := d;
     weather_code := weather_code r;
     temperature_2m_max := temperature_2m_max r;
     temperature_2m_min := temperature_2m_min r;
     apparent_temperature_max := apparent_temperature_max r;
     apparent_temperature_min := apparent_temperature_min r;
     wind_speed_10m_max := wind_speed_10m_max r |}.

(** A DataFrame with the seven columns of the script.  A column has one
    dtype: the date column holds strings (dtype object) or timestamps
    (dtype datetime64), the other columns hold floats. *)
Inductive DataFrame : Type :=
  | ObjectDates (rows : list (Row string))
  | DatetimeDates (rows : list (Row Timestamp)).

(** [len(df)] *)
Definition len (df : DataFrame) : nat :=
  match df with
  | ObjectDates rows => List.length rows
  | DatetimeDates rows => List.length rows
  end.

(** *** [DataFrame.nlargest(n, column)] with the default [keep='first']

    The rows whose key is not NaN in descending order of the key, rows with
    equal keys in their original order, then the rows whose key is NaN;
    the first [n] of them. *)

Section NLargest.
Context {A : Type} (key : A -> float).

Fixpoint insert_desc (x : A) (l : list A) : list A :=
  match l with
  | [] => [x]
  | y :: l' => if SFltb (key x) (key y) then y :: insert_desc x l' else x :: l
  end.

Fixpoint sort_desc (l : list A) : list A :=
  match l with
  | [] => []
  | x :: l' => insert_desc x (sort_desc l')
  end.

Definition nlargest (n : nat) (l : list A) : list A :=
  firstn n (sort_desc (List.filter (fun r => negb (isna (key r))) l)
            ++ List.filter (fun r => isna (key r)) l).
End NLargest.

(** *** [DataFrame.drop_duplicates(subset=column)] with [keep='first'] *)

Section DropDuplicates.
Context {A K : Type} `{EqDecision K} (key : A -> K).

Fixpoint drop_duplicates_from (seen : list K) (l : list A) : list A :=
  match l with
  | [] => []
  | x :: l' =>
      if bool_decide (key x ∈ seen) then drop_duplicates_from seen l'
      else x :: drop_duplicates_from (key x :: seen) l'
  end.

Definition drop_duplicates (l : list A) : list A := drop_duplicates_from [] l.
End DropDuplicates.

End Frame.

(** ** Summary Reporter: [get_dates] and the counts of the main block *)

Module Reporter.
Import Frame.

(** The [months] dictionary of [get_dates]. *)
Definition months : list (Z * string) :=
  [ (1, "января"); (2, "февраля"); (3, "марта"); (4, "апреля");
    (5, "мая"); (6, "июня"); (7, "июля"); (8, "августа");
    (9, "сентября"); (10, "октября"); (11, "ноября"); (12, "декабря") ]%Z.

(** [d[k]] on a dictionary with integer keys; [None] stands for [KeyError]. *)
Fixpoint dict_get {V : Type} (k : Z) (d : list (Z * V)) : option V :=
  match d with
  | [] => None
  | (k', v) :: d' => if Z.eqb k k' then Some v else dict_get k d'
  end.

(** The lambda of [get_dates]: [f"{x.day} {months[x.month]} {x.year}"]. *)
Definition format_date (x : Timestamp) : result string :=
  let k := month_number (month x) in
  match dict_get k months with
  | Some name => Ok (str_of_nat (day x) +:+ " " +:+ name +:+ " " +:+ str_of_nat (year x))
  | None => Raise (KeyError k)
  end.

(** [Series.apply(f)]: [f] on every element, first to last; the first
    exception ends it. *)
Fixpoint series_apply {A B : Type} (f : A -> result B) (l : list A) : result (list B) :=
  match l with
  | [] => Ok []
  | x :: l' =>
      match f x with
      | Raise e => Raise e
      | Ok y => match series_apply f l' with
                | Raise e => Raise e
                | Ok ys => Ok (y :: ys)
                end
      end
  end.

(** A row of the pooled frame built by [pd.concat]: the union of the
    columns of the two selections, NaN where a selection lacks a column. *)
Record TopRow : Type :=
  { top_date : Timestamp; top_temperature : float; top_wind : float }.

Definition concat (top_temp_dates top_wind_dates : list (Timestamp * float)) : list TopRow :=
  map (fun '(d, t) => {| top_date := d; top_temperature := t; top_wind := NaN |}) top_temp_dates
  ++ map (fun '(d, w) => {| top_date := d; top_temperature := NaN; top_wind := w |}) top_wind_dates.

(** [df.nlargest(3, 'temperature_2m_max')[['date', 'temperature_2m_max']]] *)
Definition top_temp_dates (rows : list (Row Timestamp)) : list (Timestamp * float) :=
  map (fun r => (date r, temperature_2m_max r)) (nlargest temperature_2m_max 3 rows).

(** [df.nlargest(3, 'wind_speed_10m_max')[['date', 'wind_speed_10m_max']]] *)
Definition top_wind_dates (rows : list (Row Timestamp)) : list (Timestamp * float) :=
  map (fun r => (date r, wind_speed_10m_max r)) (nlargest wind_speed_10m_max 3 rows).

(** [pd.concat([...]).drop_duplicates(subset='date')] *)
Definition pooled (rows : list (Row Timestamp)) : list TopRow :=
  drop_duplicates top_date (concat (top_temp_dates rows) (top_wind_dates rows)).

Section WithParser.

(** The string-to-timestamp parser of [pd.to_datetime]; [None] when it
    rejects the string. *)
Variable parse : string -> option Timestamp.

(** [pd.to_datetime(daily_dataframe['date'])] put back into the frame: a
    datetime column is returned as it is, a column of strings is parsed
    cell by cell. *)
Definition to_datetime (df : DataFrame) : result (list (Row Timestamp)) :=
  match df with
  | DatetimeDates rows => Ok rows
  | ObjectDates rows =>
      series_apply (fun r => match parse (date r) with
                     | Some t => Ok (with_date r t)
                     | None => Raise (ValueError ("Unknown datetime string format: " +:+ date r))
                     end) rows
  end.

(** [get_dates] returns its value together with the caller's frame, whose
    date column it assigns in its first statement. *)
Definition get_dates (daily_dataframe : DataFrame) : result (list string) * DataFrame :=
  match to_datetime daily_dataframe with
  | Raise e => (Raise e, daily_dataframe)
  | Ok rows =>
      let daily_dataframe := DatetimeDates rows in
      let top_dates := nlargest top_temperature 3 (pooled rows) in
      (series_apply format_date (map top_date top_dates), daily_dataframe)
  end.

(** [df['weather_code'].isin([0, 1])] and [df['temperature_2m_max'] >= 20] *)
Definition is_sunny {D : Type} (r : Row D) : bool :=
  SFeqb (weather_code r) (float_of_Z 0) || SFeqb (weather_code r) (float_of_Z 1).

Definition is_warm {D : Type} (r : Row D) : bool :=
  SFleb (float_of_Z 20) (temperature_2m_max r).

(** [df[mask].shape[0]] *)
Definition count_where (p : forall D : Type, Row D -> bool) (df : DataFrame) : nat :=
  match df with
  | ObjectDates rows => List.length (List.filter (p string) rows)
  | DatetimeDates rows => List.length (List.filter (p Timestamp) rows)
  end.

(** [", ".join(l)] *)
Fixpoint join (sep : string) (l : list string) : string :=
  match l with
  | [] => ""
  | [s] => s
  | s :: l' => s +:+ sep +:+ join sep l'
  end.

(** The reporting part of the main block: two counts and the three dates,
    each printed; it returns what it printed and the frame it leaves. *)
Definition summary_reporter (received_daily_dataframe : DataFrame)
  : result (list string) * DataFrame :=
  let count := count_where (@is_sunny) received_daily_dataframe in
  let line1 :=
    "Количество солнечных дней (weather_code 0, 1) в запрошенном периоде - "
      +:+ str_of_nat count in
  let count := count_where (@is_warm) received_daily_dataframe in
  let line2 :=
    "количество дней, когда температура была выше 20 градусов по Цельсию в запрошенном периоде - "
      +:+ str_of_nat count in
  match get_dates received_daily_dataframe with
  | (Raise e, df) => (Raise e, df)
  | (Ok formatted_dates, df) =>
      let line3 :=
        "3 дня, когда была самая высокая температура и самый сильный ветер - "
          +:+ join ", " formatted_dates in
      (Ok [line1; line2; line3], df)
  end.

End WithParser.

(** *** A parser for ISO calendar dates, [YYYY-MM-DD], read as midnight UTC *)

Definition digit (c : ascii) : option nat :=
  let n := nat_of_ascii c in
  if (48 <=? n) && (n <=? 57) then Some (n - 48) else None.

Fixpoint number (acc : nat) (s : string) : option nat :=
  match s with
  | EmptyString => Some acc
  | String c s' =>
      match digit c with
      | Some d => number (10 * acc + d) s'
      | None => None
      end
  end.

Definition month_of_nat (n : nat) : option Month :=
  match n with
  | 1 => Some Jan | 2 => Some Feb | 3 => Some Mar | 4 => Some Apr
  | 5 => Some May | 6 => Some Jun | 7 => Some Jul | 8 => Some Aug
  | 9 => Some Sep | 10 => Some Oct | 11 => Some Nov | 12 => Some Dec
  | _ => None
  end.

Definition parse_iso_date (s : string) : option Timestamp :=
  if (String.length s =? 10)
     && bool_decide (String.get 4 s = Some "-"%char)
     && bool_decide (String.get 7 s = Some "-"%char)
  then
    match number 0 (String.substring 0 4 s),
          number 0 (String.substring 5 2 s),
          number 0 (String.substring 8 2 s) with
    | Some y, Some m, Some d =>
        match month_of_nat m with
        | Some mo => Some {| year := y; month := mo; day := d; second_of_day := 0 |}
        | None => None
        end
    | _, _, _ => None
    end
  else None.

End Reporter.

(** ** Database Gateway: [create_table] and [load_data] *)

Module Gateway.
Import Frame.

Inductive sqltype : Type := DATE | INTEGER | FLOAT | TIMESTAMP | TEXT.

Record Schema : Type :=
  { columns : list (string * sqltype); primary_key : option string }.

#[global] Instance sqltype_eq_dec : EqDecision sqltype.
Proof. solve_decision. Defined.

#[global] Instance Schema_eq_dec : EqDecision Schema.
Proof. solve_decision. Defined.

(** The schema of the DDL statement in [create_table]. *)
Definition ddl_schema : Schema :=
  {| columns :=
       [ ("date", DATE);
         ("weather_code", INTEGER);
         ("temperature_2m_max", FLOAT);
         ("temperature_2m_min", FLOAT);
         ("apparent_temperature_max", FLOAT);
         ("apparent_temperature_min", FLOAT);
         ("wind_speed_10m_max", FLOAT) ];
     primary_key := Some "date" |}.

(** The SQL engine behind the [engine] object, with state [S].  Each
    operation stands for opening a connection and running one statement of
    the script; any of them may raise.
    - [create_table_if_not_exists]: the DDL, [CREATE TABLE IF NOT EXISTS];
    - [select_exists]: the lookup in [information_schema.tables];
    - [to_sql_replace]: [DataFrame.to_sql(..., if_exists='replace', index=False)];
    - [select_count]: [SELECT COUNT( * )]. *)
Record Engine (S : Type) : Type :=
  { create_table_if_not_exists : string -> Schema -> S -> result unit * S;
    select_exists : string -> S -> result bool * S;
    to_sql_replace : DataFrame -> string -> S -> result unit * S;
    select_count : string -> S -> result Z * S }.
Arguments create_table_if_not_exists {S} _ _ _ _.
Arguments select_exists {S} _ _ _.
Arguments to_sql_replace {S} _ _ _ _.
Arguments select_count {S} _ _ _.

(** The world of the gateway: the engine's state and the console output. *)
Record World (S : Type) : Type := { db : S; printed : list string }.
Arguments db {S} _.
Arguments printed {S} _.

(** *** Statements that may raise, over a world *)

Definition M (W A : Type) : Type := W -> result A * W.

Definition ret {W A : Type} (a : A) : M W A := fun w => (Ok a, w).

Definition raise {W A : Type} (e : exn) : M W A := fun w => (Raise e, w).

Definition bind {W A B : Type} (m : M W A) (k : A -> M W B) : M W B :=
  fun w => match m w with
           | (Ok a, w') => k a w'
           | (Raise e, w') => (Raise e, w')
           end.

(** [try: m  except Exception as e: handler(e)] *)
Definition try_except {W A : Type} (m : M W A) (handler : exn -> M W A) : M W A :=
  fun w => match m w with
           | (Ok a, w') => (Ok a, w')
           | (Raise e, w') => handler e w'
           end.

#[global] Instance M_ret {W : Type} : MRet (M W) := @ret W.
#[global] Instance M_bind {W : Type} : MBind (M W) := fun A B k m => bind m k.

Definition print {S : Type} (line : string) : M (World S) unit :=
  fun w => (Ok tt, {| db := db w; printed := printed w ++ [line] |}).

(** Run an engine operation on the database of the world. *)
Definition on_engine {S A : Type} (op : S -> result A * S) : M (World S) A :=
  fun w => let '(r, s) := op (db w) in (r, {| db := s; printed := printed w |}).

(** [str(e)]: the message of the exception. *)
Definition str_exn (e : exn) : string :=
  match e with
  | RuntimeError msg | ValueError msg | DBAPIError msg => msg
  | CalledProcessError rc => "non-zero exit status " +:+ str_of_Z rc
  | FileNotFoundError tool => "No such file or directory: " +:+ tool
  | KeyError k => str_of_Z k
  | EOFError => ""
  end.

Definition msg_not_created (table_name : string) : string :=
  "Ошибка: Таблица '" +:+ table_name +:+ "' не была создана."
    +:+ Launcher.nl +:+ "            Проверьте параметры запроса."
    +:+ Launcher.nl +:+ "            ".

Definition msg_count_mismatch (row_count : Z) (expected : nat) : string :=
  "Ошибка: записано " +:+ str_of_Z row_count +:+ " записей, ожидается "
    +:+ str_of_nat expected +:+ ".".

Section WithEngine.
Context {S : Type} (engine : Engine S).

(** The second half of [create_table]: the existence check. *)
Definition verify_table (table_name : string) : M (World S) string :=
  table_exists ← on_engine (select_exists engine table_name);
  if negb table_exists
  then raise (RuntimeError (msg_not_created table_name))
  else print ("Таблица '" +:+ table_name +:+ "' успешно создана.");;
       mret "Success".

Definition create_table (table_name : string) : M (World S) string :=
  print "Создание таблицы в базе данных...";;
  try_except
    (on_engine (create_table_if_not_exists engine table_name ddl_schema))
    (fun e => print ("Ошибка при создании таблицы: " +:+ str_exn e));;
  verify_table table_name.

Definition load_data (daily_dataframe : DataFrame) (table_name : string)
  : M (World S) string :=
  print "Запись данных в таблицу daily_weather...";;
  on_engine (to_sql_replace engine daily_dataframe table_name);;
  row_count ← on_engine (select_count engine table_name);
  if negb (Z.eqb row_count (Z.of_nat (len daily_dataframe)))
  then raise (ValueError (msg_count_mismatch row_count (len daily_dataframe)))
  else print ("Данные успешно записаны в таблицу " +:+ table_name +:+ ".");;
       mret "Success".

End WithEngine.

(** *** A reference engine: PostgreSQL driven through pandas *)

Record Table : Type := { schema : Schema; contents : DataFrame }.

(** The schema that [to_sql] creates from the dtypes of the frame: a text or
    timestamp column for the dates, float columns for the rest, and no key
    ([index=False], no constraint is ever emitted). *)
Definition pandas_schema (df : DataFrame) : Schema :=
  {| columns :=
       [ ("date", match df with ObjectDates _ => TEXT | DatetimeDates _ => TIMESTAMP end);
         ("weather_code", FLOAT);
         ("temperature_2m_max", FLOAT);
         ("temperature_2m_min", FLOAT);
         ("apparent_temperature_max", FLOAT);
         ("apparent_temperature_min", FLOAT);
         ("wind_speed_10m_max", FLOAT) ];
     primary_key := None |}.

(** [if_exists='replace'] drops the table and creates it anew from the frame
    before inserting the rows.

    A table is known by its name, taken as the key of the map.  The script
    writes the name unquoted in the DDL and in the count query, quoted in
    [to_sql] and as a string literal in the catalogue lookup.  PostgreSQL
    takes the four for the same table when the name is a lower-case
    identifier, as the script's own [daily_weather] is; it folds an
    unquoted [Daily_Weather] to lower case, and for such a name the four
    statements do not meet.  The model stands for names of the first kind. *)
Definition postgres : Engine (gmap string Table) :=
  {| create_table_if_not_exists name sch tables :=
       match tables !! name with
       | Some _ => (Ok tt, tables)
       | None => (Ok tt, <[name := {| schema := sch; contents := DatetimeDates [] |}]> tables)
       end;
     select_exists name tables := (Ok (bool_decide (is_Some (tables !! name))), tables);
     to_sql_replace df name tables :=
       (Ok tt, <[name := {| schema := pandas_schema df; contents := df |}]> tables);
     select_count name tables :=
       match tables !! name with
       | Some t => (Ok (Z.of_nat (len (contents t))), tables)
       | None => (Raise (DBAPIError ("relation " +:+ name +:+ " does not exist")), tables)
       end |}.

(** *** Engines that misbehave *)

(** A stub that keeps only the number of persisted rows and loses [lost]
    rows of every load. *)
Definition counting_stub (lost : nat) : Engine nat :=
  {| create_table_if_not_exists name sch n := (Ok tt, n);
     select_exists name n := (Ok true, n);
     to_sql_replace df name n := (Ok tt, len df - lost);
     select_count name n := (Ok (Z.of_nat n), n) |}.

(** An engine whose user may not create tables: the DDL is refused. *)
Definition no_ddl : Engine (gmap string Table) :=
  {| create_table_if_not_exists name sch tables :=
       (Raise (DBAPIError "permission denied for schema public"), tables);
     select_exists := select_exists postgres;
     to_sql_replace := to_sql_replace postgres;
     select_count := select_count postgres |}.

End Gateway.

(** ** Sample data *)

Module Samples.
Import Frame.

Definition midnight (y : nat) (m : Month) (d : nat) : Timestamp :=
  {| year := y; month := m; day := d; second_of_day := 0 |}.

(** An observation with the given maximal temperature and wind speed. *)
Definition observation {D : Type} (d : D) (temperature wind : Z) : Row D :=
  {| date := d;
     weather_code := float_of_Z 1;
     temperature_2m_max := float_of_Z temperature;
     temperature_2m_min := float_of_Z (temperature - 9);
     apparent_temperature_max := float_of_Z (temperature - 2);
     apparent_temperature_min := float_of_Z (temperature - 11);
     wind_speed_10m_max := float_of_Z wind |}.

Definition three_days : list (Row Timestamp) :=
  [ observation (midnight 2024 Sep 1) 30 5;
    observation (midnight 2024 Sep 2) 25 40;
    observation (midnight 2024 Sep 3) 20 2 ].

(** Five days; the two windiest are not among the three warmest. *)
Definition five_days : list (Row Timestamp) :=
  [ observation (midnight 2024 Aug 30) 18 3;
    observation (midnight 2024 Aug 31) 12 50;
    observation (midnight 2024 Sep 1) 24 7;
    observation (midnight 2024 Sep 2) 15 45;
    observation (midnight 2024 Sep 3) 21 1 ].

(** The dates as text, the form the docstring of [get_dates] asks for. *)
Definition three_days_text : list (Row string) :=
  [ observation "2024-09-01" 30 5;
    observation "2024-09-02" 25 40;
    observation "2024-09-03" 20 2 ].

(** A database in which the table of the DDL is already there. *)
Definition with_daily_weather : gmap string Gateway.Table :=
  {[ "daily_weather" :=
       {| Gateway.schema := Gateway.ddl_schema; Gateway.contents := DatetimeDates [] |} ]}.

End Samples.

(** ** Measures on the launcher's trace *)

Module LauncherTrace.
Import Launcher.

Definition sleep_seconds (e : event) : nat :=
  match e with Sleep seconds => seconds | _ => 0 end.

(** The seconds spent in [time.sleep] along a trace. *)
Fixpoint slept (t : trace) : nat :=
  match t with
  | [] => 0
  | e :: t' => sleep_seconds e + slept t'
  end.

(** The results that the runtime gives to [c] status checks in a row, the
    first of them being subprocess number [base]. *)
Definition checks_seen (runtime : Runtime) (base c : nat) : list (result string) :=
  map (fun i => runtime (base + i) docker_ps_argv) (seq 0 c).

(** How many of these results are listings without the name. *)
Definition count_misses (container_name : string) (seen : list (result string)) : nat :=
  List.length (List.filter (misses container_name) seen).

(** An event of the status loop: the listing command, a message or a sleep. *)
Definition is_loop_event (e : event) : bool :=
  match e with
  | Run argv => bool_decide (argv = docker_ps_argv)
  | WriteFile _ _ => false
  | Sleep _ | Print _ => true
  end.

(** [docker-compose] exits with a non-zero status. *)
Definition runtime_compose_fails : Runtime :=
  fun n argv =>
    if bool_decide (argv = compose_up_argv) then Raise (CalledProcessError 1) else Ok "".

End LauncherTrace.

(** ** The responses that [ask_user] accepts *)

Module Answers.

(** The text made of the given code points. *)
Definition text (cs : list N) : string :=
  fold_right (fun c s => PyStr.utf8 c +:+ s) "" cs.

(** Padding: a text made of whitespace characters only. *)
Definition padding (s : string) : Prop :=
  exists cs, Forall (fun c => In c PyStr.whitespace) cs /\ s = text cs.

End Answers.

(** ** The main block of main_script.py *)

Module Pipeline.
Import Frame.

Definition CONTAINER_NAME : string := "postgres_weather".
Definition DB_NAME : string := "postgres".
Definition TABLE_NAME : string := "daily_weather".
Definition MONTHS : nat := 2.
Definition DB_HOST : string := "localhost".
Definition DB_PORT : string := "5432".
Definition BD_PORT_A : string := "5433".
Definition DB_USER : string := "user".
Definition DB_PASSWORD : string := "pass".

(** [db_connect] only builds the URL of the engine; [create_engine] opens no
    connection. *)
Definition db_connect (db_user db_password db_host db_port db_name : string) : string :=
  "postgresql+psycopg2://" +:+ db_user +:+ ":" +:+ db_password +:+ "@" +:+ db_host
    +:+ ":" +:+ db_port +:+ "/" +:+ db_name.

Definition compose_down_argv : list string := ["docker-compose"; "down"].

(** The world of the whole run: the launcher's trace, the gateway's world,
    the console of [ask_user] and the lines the main block prints itself.
    Each component keeps its own output. *)
Record World (S : Type) : Type :=
  { os : Launcher.trace;
    database : Gateway.World S;
    console : Teardown.Console;
    log : list string }.
Arguments os {S} _.
Arguments database {S} _.
Arguments console {S} _.
Arguments log {S} _.

Definition msg_sunny (count : nat) : string :=
  "Количество солнечных дней (weather_code 0, 1) в запрошенном периоде - "
    +:+ str_of_nat count.

Definition msg_warm (count : nat) : string :=
  "количество дней, когда температура была выше 20 градусов по Цельсию в запрошенном периоде - "
    +:+ str_of_nat count.

Definition msg_dates (formatted_dates : list string) : string :=
  "3 дня, когда была самая высокая температура и самый сильный ветер - "
    +:+ Reporter.join ", " formatted_dates.

Definition msg_connection_parameters : string :=
  Launcher.nl +:+ Launcher.unlines [
    "Вы можете подключиться к локальной базе данных PostgreSQL";
    "с помощью любого клиента (например, DBeaver, pgAdmin или командной строки)";
    "с использованием следующих параметров:";
    "";
    "    Хост: " +:+ DB_HOST;
    "    Порт: " +:+ BD_PORT_A;
    "    База данных: " +:+ DB_NAME;
    "    Полльзователь: " +:+ DB_USER;
    "    Пароль: " +:+ DB_PASSWORD
  ] +:+ "    ".

Section WithEnvironment.
Context {S : Type}.
Variable runtime : Launcher.Runtime.
Variable engine : Gateway.Engine S.
Variable parse : string -> option Timestamp.

Definition say (line : string) (w : World S) : World S :=
  {| os := os w; database := database w; console := console w; log := log w ++ [line] |}.

(** The end of the main block: ask, then [docker-compose down] on "y". *)
Definition teardown (w : World S) : result unit * World S :=
  match Teardown.ask_user (console w) with
  | (Raise e, c) =>
      (Raise e, {| os := os w; database := database w; console := c; log := log w |})
  | (Ok user_answer, c) =>
      let w1 := {| os := os w; database := database w; console := c; log := log w |} in
      if String.eqb user_answer "y" then
        let w2 := say "Остановка и удаление контейнера..." w1 in
        match Launcher.subprocess_run runtime compose_down_argv (os w2) with
        | (Raise e, t) =>
            (Raise e, {| os := t; database := database w2; console := c; log := log w2 |})
        | (Ok _, t) =>
            (Ok tt, say "Контейнер успешно остановлен и удален."
                      {| os := t; database := database w2; console := c; log := log w2 |})
        end
      else (Ok tt, say "Контейнер Postgres оставлен запущенным." w1)
  end.

(** The statements after [load_data]: the two counts, [get_dates], the
    connection parameters, the teardown. *)
Definition report_and_teardown (received_daily_dataframe : DataFrame) (w : World S)
  : result unit * World S :=
  let count := Reporter.count_where (@Reporter.is_sunny) received_daily_dataframe in
  let w := say (msg_sunny count) w in
  let count := Reporter.count_where (@Reporter.is_warm) received_daily_dataframe in
  let w := say (msg_warm count) w in
  match Reporter.get_dates parse received_daily_dataframe with
  | (Raise e, _) => (Raise e, w)
  | (Ok formatted_dates, _) =>
      let w := say (msg_dates formatted_dates) w in
      let w := say msg_connection_parameters w in
      teardown w
  end.

(** The main block.  [fetched] is the outcome of [get_weather_data(MONTHS)],
    which talks to the weather service; [fuel] bounds the status loop of
    [launch_container], and [None] means that loop is still running. *)
Definition main (fetched : result DataFrame) (fuel : nat) (w : World S)
  : option (result unit * World S) :=
  match fetched with
  | Raise e => Some (Raise e, w)
  | Ok received_daily_dataframe =>
      let w := say "Исторические данные погоды в городе Санкт-Петербург, Россия успешно получены." w in
      let w := say ("Количество месяцев, за которые получены данные - "
                      +:+ str_of_nat MONTHS +:+ ".") w in
      match Launcher.launch_container runtime fuel CONTAINER_NAME DB_NAME DB_USER
              DB_PASSWORD DB_PORT BD_PORT_A (os w) with
      | None => None
      | Some (Raise e, t) =>
          Some (Raise e,
                {| os := t; database := database w; console := console w; log := log w |})
      | Some (Ok _, t) =>
          let w := {| os := t; database := database w; console := console w; log := log w |} in
          let db_engine := db_connect DB_USER DB_PASSWORD DB_HOST BD_PORT_A DB_NAME in
          let w := say ("Подключение к базе " +:+ DB_NAME +:+ " успешно установлено.") w in
          match Gateway.create_table engine TABLE_NAME (database w) with
          | (Raise e, g) =>
              Some (Raise e, {| os := os w; database := g; console := console w; log := log w |})
          | (Ok _, g) =>
              match Gateway.load_data engine received_daily_dataframe TABLE_NAME g with
              | (Raise e, g') =>
                  Some (Raise e,
                        {| os := os w; database := g'; console := console w; log := log w |})
              | (Ok _, g') =>
                  Some (report_and_teardown received_daily_dataframe
                          {| os := os w; database := g'; console := console w; log := log w |})
              end
          end
      end
  end.

End WithEnvironment.

End Pipeline.

(** ** Environment Bootstrapper: Task_1/setup_and_run.py *)

Module Setup.

(** What the script does to the machine, in program order. *)
Inductive action : Type :=
  | CreateVenv (path : string)
  | Exec (argv : list string)
  | Say (msg : string).

(** The machine: the paths that exist and what was done so far. *)
Record Machine : Type := { paths : gset string; done : list action }.

(** The host the script runs on: [os.name], the outcome of [venv.create],
    whether a [venv.create] that fails has made the directory by then (it
    makes the directory first and installs pip into it last), and the
    outcome of the [n]-th subprocess (counting from 0). *)
Record Host : Type :=
  { os_name : string;
    venv_create : string -> result unit;
    venv_leftover : string -> bool;
    run : nat -> list string -> result string }.

Definition is_exec (a : action) : bool :=
  match a with Exec _ => true | _ => false end.

Definition count_execs (l : list action) : nat := List.length (List.filter is_exec l).

Definition VENV_DIR : string := "test_task_venv".

(** [os.path.join] of three plain names: the separator of the platform
    between them. *)
Definition os_path_join (os_name a b c : string) : string :=
  let sep := if String.eqb os_name "nt" then "\" else "/" in
  a +:+ sep +:+ b +:+ sep +:+ c.

Section WithHost.
Variable host : Host.

Definition say (msg : string) (m : Machine) : Machine :=
  {| paths := paths m; done := done m ++ [Say msg] |}.

(** [subprocess.run(argv, check=True)] *)
Definition subprocess_run (argv : list string) (m : Machine) : result string * Machine :=
  (run host (count_execs (done m)) argv,
   {| paths := paths m; done := done m ++ [Exec argv] |}).

Definition create_virtualenv (venv_path : string) (m : Machine) : result unit * Machine :=
  let m := say ("Создание виртуального окружения в папке '" +:+ venv_path +:+ "'...") m in
  let m1 := {| paths := paths m; done := done m ++ [CreateVenv venv_path] |} in
  match venv_create host venv_path with
  | Raise e =>
      (Raise e,
       {| paths := if venv_leftover host venv_path
                   then {[venv_path]} ∪ paths m1 else paths m1;
          done := done m1 |})
  | Ok _ =>
      (Ok tt, say ("Виртуальное окружение '" +:+ venv_path +:+ "' создано.")
                {| paths := {[venv_path]} ∪ paths m1; done := done m1 |})
  end.

Definition install_requirements (venv_python : string) (m : Machine) : result unit * Machine :=
  let m := say "Установка зависимостей из 'requirements.txt'..." m in
  match subprocess_run [venv_python; "-m"; "pip"; "install"; "--upgrade"; "pip"] m with
  | (Raise e, m) => (Raise e, m)
  | (Ok _, m) =>
      match subprocess_run [venv_python; "-m"; "pip"; "install"; "-r"; "requirements.txt"] m with
      | (Raise e, m) => (Raise e, m)
      | (Ok _, m) => (Ok tt, say "Все зависимости успешно установлены." m)
      end
  end.

(** The path of the interpreter inside the environment. *)
Definition venv_python : string :=
  if String.eqb (os_name host) "nt"
  then os_path_join (os_name host) VENV_DIR "Scripts" "python.exe"
  else os_path_join (os_name host) VENV_DIR "bin" "python".

(** The main block of the script. *)
Definition main (m : Machine) : result unit * Machine :=
  let created :=
    if bool_decide (VENV_DIR ∈ paths m) then (Ok tt, m) else create_virtualenv VENV_DIR m in
  match created with
  | (Raise e, m) => (Raise e, m)
  | (Ok _, m) =>
      let curr_venv_python := venv_python in
      match install_requirements curr_venv_python m with
      | (Raise e, m) => (Raise e, m)
      | (Ok _, m) =>
          let m := say "Запуск основного скрипта внутри виртуального окружения..." m in
          match subprocess_run [curr_venv_python; "main_script.py"] m with
          | (Raise e, m) => (Raise e, m)
          | (Ok _, m) => (Ok tt, m)
          end
      end
  end.

End WithHost.

End Setup.

(** ** Sample environments *)

Module Scenarios.

(** A docker runtime that lists the container at the first check. *)
Definition docker_ready : Launcher.Runtime :=
  Launcher.runtime_ready_at 1 ("postgres_weather" +:+ Launcher.nl).

(** The world before the main block runs, with the given lines waiting on
    the standard input; the database is the row-counting stub. *)
Definition fresh_world (answers : list string) : Pipeline.World nat :=
  {| Pipeline.os := [];
     Pipeline.database := {| Gateway.db := 0; Gateway.printed := [] |};
     Pipeline.console := {| Teardown.stdin := answers; Teardown.printed := [] |};
     Pipeline.log := [] |}.

(** A POSIX host on which every command succeeds. *)
Definition posix_host : Setup.Host :=
  {| Setup.os_name := "posix";
     Setup.venv_create := fun _ => Ok tt;
     Setup.venv_leftover := fun _ => true;
     Setup.run := fun _ _ => Ok "" |}.

(** A POSIX host without network: the second command, [pip install -r],
    exits with status 1. *)
Definition offline_host : Setup.Host :=
  {| Setup.os_name := "posix";
     Setup.venv_create := fun _ => Ok tt;
     Setup.venv_leftover := fun _ => true;
     Setup.run := fun n _ => if n =? 1 then Raise (CalledProcessError 1) else Ok "" |}.

(** A POSIX host on which [venv.create] has made the directory when the
    installation of pip into it fails. *)
Definition no_pip_host : Setup.Host :=
  {| Setup.os_name := "posix";
     Setup.venv_create := fun _ => Raise (CalledProcessError 1);
     Setup.venv_leftover := fun _ => true;
     Setup.run := fun _ _ => Ok "" |}.

(** A machine on which nothing exists and nothing was done. *)
Definition new_machine : Setup.Machine := {| Setup.paths := ∅; Setup.done := [] |}.

End Scenarios.

(** * Properties *)

(** ** Teardown Controller *)

Module TeardownFacts.
Import Teardown.

Example normalize_upper_padded :
  normalize (" " +:+ Launcher.nl +:+ "Y  " +:+ Launcher.nl) = "y".
Proof. reflexivity. Qed.

Example normalize_word : normalize "yes" = "yes" /\ is_answer (normalize "yes") = false.
Proof. split; reflexivity. Qed.

Example normalize_inner_space : is_answer (normalize "y n") = false.
Proof. reflexivity. Qed.

(** Whitespace outside ASCII is trimmed as well: a NO-BREAK SPACE after the
    answer, an EM SPACE before it and a NEXT LINE after it. *)
Example normalize_no_break_space : normalize ("y" +:+ PyStr.utf8 0xA0) = "y".
Proof. vm_compute. reflexivity. Qed.

Example normalize_em_space :
  normalize (PyStr.utf8 0x2003 +:+ "N" +:+ PyStr.utf8 0x85) = "n".
Proof. vm_compute. reflexivity. Qed.

Example ask_user_no_break_space :
  ask_user {| stdin := ["y" +:+ PyStr.utf8 0xA0; "n"]; printed := [] |}
  = (Ok "y", {| stdin := ["n"]; printed := [prompt] |}).
Proof. vm_compute. reflexivity. Qed.

(** A letter outside ASCII is not an answer, and neither is a y with a
    ZERO WIDTH SPACE, which is not whitespace, after it. *)
Example normalize_zero_width_space :
  is_answer (normalize ("y" +:+ PyStr.utf8 0x200B)) = false.
Proof. vm_compute. reflexivity. Qed.

Lemma is_answer_spec (answer : string) :
  is_answer answer = true <-> answer = "y" \/ answer = "n".
Proof.
  unfold is_answer. rewrite orb_true_iff, !String.eqb_eq. reflexivity.
Qed.

(** Rejected responses are skipped one by one, each leaving the prompt and
    the error message on the console. *)
Lemma ask_user_loop_skips (rejected lines out : list string) :
  Forall (fun r => is_answer (normalize r) = false) rejected ->
  ask_user_loop (rejected ++ lines) out = ask_user_loop lines (out ++ reprompts rejected).
Proof.
  intros Hrej. revert out.
  induction Hrej as [|r rejected Hr _ IH]; intros out; simpl.
  - now rewrite app_nil_r.
  - rewrite Hr, IH. now rewrite <- app_assoc.
Qed.

(** C10: [ask_user] returns exactly when a response normalizes (strip, then
    lower) to "y" or "n": it skips any number of other responses, each with
    a re-prompt, and returns the normalized form of the first valid one;
    when no response is valid it never returns a value (the console runs
    dry and [input] raises [EOFError]). *)
Theorem ask_user_returns_first_valid_answer (lines out : list string) :
  (forall rejected line rest,
      lines = rejected ++ line :: rest ->
      Forall (fun r => is_answer (normalize r) = false) rejected ->
      is_answer (normalize line) = true ->
      ask_user {| stdin := lines; printed := out |}
      = (Ok (normalize line),
         {| stdin := rest; printed := out ++ reprompts rejected ++ [prompt] |})
      /\ (normalize line = "y" \/ normalize line = "n"))
  /\ (Forall (fun r => is_answer (normalize r) = false) lines ->
      ask_user {| stdin := lines; printed := out |}
      = (Raise EOFError,
         {| stdin := []; printed := out ++ reprompts lines ++ [prompt] |})).
Proof.
  unfold ask_user; simpl. split.
  - intros rejected line rest -> Hrej Hline. split.
    + rewrite ask_user_loop_skips by assumption. simpl.
      rewrite Hline. now rewrite <- app_assoc.
    + now apply is_answer_spec.
  - intros Hrej.
    rewrite <- (app_nil_r lines) at 1.
    rewrite ask_user_loop_skips by assumption. simpl.
    now rewrite <- app_assoc.
Qed.

Lemma ask_user_returns_first_valid_answer_witness :
  ask_user {| stdin := ["maybe"; ""; " N "; "y"]; printed := [] |}
  = (Ok "n", {| stdin := ["y"];
                printed := [prompt; error_message; prompt; error_message; prompt] |})
  /\ ask_user {| stdin := ["no"; "yy"]; printed := [] |}
     = (Raise EOFError,
        {| stdin := [];
           printed := [prompt; error_message; prompt; error_message; prompt] |}).
Proof.
  split.
  - apply (proj1 (ask_user_returns_first_valid_answer ["maybe"; ""; " N "; "y"] [])
             ["maybe"; ""] " N " ["y"]).
    + reflexivity.
    + repeat constructor.
    + reflexivity.
  - apply (proj2 (ask_user_returns_first_valid_answer ["no"; "yy"] [])).
    repeat constructor.
Defined.

End TeardownFacts.

(** ** [str] facts *)

Module PyStrFacts.
Import PyStr.

Lemma append_nil_l (s : string) : "" +:+ s = s.
Proof. reflexivity. Qed.

Lemma append_cons (c : ascii) (s t : string) : String c s +:+ t = String c (s +:+ t).
Proof. reflexivity. Qed.

(** U+00A0 is the bytes C2 A0, U+2003 the bytes E2 80 83. *)
Example utf8_no_break_space :
  utf8 0xA0 = String (ascii_of_nat 194) (String (ascii_of_nat 160) "").
Proof. reflexivity. Qed.

Example utf8_em_space :
  utf8 0x2003
  = String (ascii_of_nat 226) (String (ascii_of_nat 128) (String (ascii_of_nat 131) "")).
Proof. reflexivity. Qed.

Lemma prefix_iff (needle hay : string) :
  String.prefix needle hay = true <-> exists post, hay = needle +:+ post.
Proof.
  revert hay. induction needle as [|c needle IH]; intros hay.
  - split; [intros _; now exists hay | now destruct hay].
  - destruct hay as [|d hay]; simpl.
    + split; [discriminate | intros [post H]; discriminate].
    + destruct (ascii_dec c d) as [->|Hne].
      * rewrite IH. split; intros [post H]; exists post;
          rewrite append_cons in *; congruence.
      * split; [discriminate | intros [post H]; rewrite append_cons in H; congruence].
Qed.

Lemma contains_unfold (needle hay : string) :
  contains needle hay
  = if String.prefix needle hay then true
    else match hay with
         | EmptyString => false
         | String _ hay' => contains needle hay'
         end.
Proof. destruct hay; reflexivity. Qed.

(** [a in b] holds exactly when [b] is [a] with something before and after. *)
Lemma contains_iff (needle hay : string) :
  contains needle hay = true <-> exists pre post, hay = pre +:+ needle +:+ post.
Proof.
  split.
  - induction hay as [|c hay IH]; rewrite contains_unfold.
    + destruct (String.prefix needle "") eqn:E; [|discriminate].
      intros _. apply prefix_iff in E as [post E]. now exists "", post.
    + destruct (String.prefix needle (String c hay)) eqn:E.
      * intros _. apply prefix_iff in E as [post E]. now exists "", post.
      * intros H. destruct (IH H) as (pre & post & ->).
        now exists (String c pre), post.
  - intros (pre & post & ->). induction pre as [|c pre IH]; rewrite contains_unfold.
    + rewrite append_nil_l.
      replace (String.prefix needle (needle +:+ post)) with true; [reflexivity|].
      symmetry. apply prefix_iff. now exists post.
    + rewrite append_cons, IH. now destruct (String.prefix _ _).
Qed.

Lemma contains_infix (pre needle post : string) :
  contains needle (pre +:+ needle +:+ post) = true.
Proof. apply contains_iff. now exists pre, post. Qed.

End PyStrFacts.

(** ** Container Launcher *)

Module LauncherFacts.
Import Launcher.

Lemma count_runs_app (t t' : trace) : count_runs (t ++ t') = count_runs t + count_runs t'.
Proof. unfold count_runs. now rewrite List.filter_app, length_app. Qed.

Lemma count_checks_app (t t' : trace) :
  count_checks (t ++ t') = count_checks t + count_checks t'.
Proof. unfold count_checks. now rewrite List.filter_app, length_app. Qed.

(** A check leaves one more subprocess and one more check in the trace,
    whatever is printed or slept after it. *)
Lemma count_runs_check (t : trace) (msgs : list string) (naps : list nat) :
  count_runs ((t ++ [Run docker_ps_argv]) ++ map Print msgs ++ map Sleep naps)
  = count_runs t + 1.
Proof.
  rewrite !count_runs_app.
  assert (H1 : count_runs (map Print msgs) = 0) by (induction msgs; auto).
  assert (H2 : count_runs (map Sleep naps) = 0) by (induction naps; auto).
  rewrite H1, H2. change (count_runs [Run docker_ps_argv]) with 1. lia.
Qed.

Lemma count_checks_check (t : trace) (msgs : list string) (naps : list nat) :
  count_checks ((t ++ [Run docker_ps_argv]) ++ map Print msgs ++ map Sleep naps)
  = count_checks t + 1.
Proof.
  rewrite !count_checks_app.
  assert (H1 : count_checks (map Print msgs) = 0) by (induction msgs; auto).
  assert (H2 : count_checks (map Sleep naps) = 0) by (induction naps; auto).
  rewrite H1, H2. replace (count_checks [Run docker_ps_argv]) with 1 by reflexivity. lia.
Qed.

Section WithRuntime.
Variable runtime : Runtime.
Variable container_name : string.

Lemma poll_body_shows (retry_count : nat) (t : trace) :
  shows container_name (runtime (count_runs t) docker_ps_argv) = true ->
  poll_body runtime container_name retry_count t
  = (Done (Ok "Success"),
     (t ++ [Run docker_ps_argv]) ++ [Print (msg_running container_name)]).
Proof.
  unfold poll_body, subprocess_run, shows.
  destruct (runtime _ _) as [stdout|e]; [|discriminate].
  now intros ->.
Qed.

Lemma poll_body_misses (retry_count : nat) (t : trace) :
  misses container_name (runtime (count_runs t) docker_ps_argv) = true ->
  poll_body runtime container_name retry_count t
  = (Again (retry_count + 1),
     (t ++ [Run docker_ps_argv])
       ++ [Print (msg_not_running container_name); Sleep 10]).
Proof.
  unfold poll_body, subprocess_run, misses.
  destruct (runtime _ _) as [stdout|e]; [|discriminate].
  intros H. apply negb_true_iff in H. now rewrite H.
Qed.

Lemma poll_body_check_error (retry_count : nat) (t : trace) (rc : Z) :
  runtime (count_runs t) docker_ps_argv = Raise (CalledProcessError rc) ->
  poll_body runtime container_name retry_count t
  = (Again retry_count, (t ++ [Run docker_ps_argv]) ++ [Print (msg_check_error rc)]).
Proof. unfold poll_body, subprocess_run. now intros ->. Qed.

(** After [j] checks that do not show the name (the listing lacks it, or the
    command exits with a non-zero status), a check that shows it ends the
    loop with success, provided [retry_count + j] is at most 2. *)
Lemma poll_finds (j : nat) :
  forall (fuel retry_count : nat) (t : trace),
    retry_count + j <= 2 ->
    j < fuel ->
    (forall i, i < j ->
               not_yet container_name (runtime (count_runs t + i) docker_ps_argv) = true) ->
    shows container_name (runtime (count_runs t + j) docker_ps_argv) = true ->
    exists t',
      poll runtime fuel container_name retry_count t = Some (Ok "Success", t')
      /\ count_checks t' = count_checks t + j + 1.
Proof.
  induction j as [|j IH]; intros fuel retry_count t Hrc Hfuel Hnot Hshow.
  - destruct fuel as [|fuel]; [lia|]. simpl.
    replace (retry_count <=? 2) with true by (symmetry; apply Nat.leb_le; lia).
    rewrite Nat.add_0_r in Hshow. rewrite poll_body_shows by assumption.
    eexists; split; [reflexivity|].
    pose proof (count_checks_check t [msg_running container_name] []) as Hc.
    simpl in Hc. lia.
  - destruct fuel as [|fuel]; [lia|]. simpl.
    replace (retry_count <=? 2) with true by (symmetry; apply Nat.leb_le; lia).
    pose proof (Hnot 0 ltac:(lia)) as Hfirst. rewrite Nat.add_0_r in Hfirst.
    assert (Hnext : exists retry_count' t1,
               poll_body runtime container_name retry_count t = (Again retry_count', t1)
               /\ retry_count' + j <= 2
               /\ count_runs t1 = count_runs t + 1
               /\ count_checks t1 = count_checks t + 1).
    { destruct (runtime (count_runs t) docker_ps_argv) as [stdout|e] eqn:E.
      - exists (retry_count + 1), ((t ++ [Run docker_ps_argv])
                  ++ [Print (msg_not_running container_name); Sleep 10]).
        split; [apply poll_body_misses; now rewrite E|].
        split; [lia|]. split.
        + apply (count_runs_check t [msg_not_running container_name] [10]).
        + apply (count_checks_check t [msg_not_running container_name] [10]).
      - destruct e as [| |rc| | | |]; try discriminate Hfirst.
        exists retry_count, ((t ++ [Run docker_ps_argv]) ++ [Print (msg_check_error rc)]).
        split; [now apply poll_body_check_error|].
        split; [lia|]. split.
        + apply (count_runs_check t [msg_check_error rc] []).
        + apply (count_checks_check t [msg_check_error rc] []). }
    destruct Hnext as (retry_count' & t1 & -> & Hrc' & Hruns & Hchecks).
    destruct (IH fuel retry_count' t1) as (t' & Hpoll & Hcount).
    + lia.
    + lia.
    + intros i Hi. rewrite Hruns.
      replace (count_runs t + 1 + i) with (count_runs t + S i) by lia.
      apply Hnot. lia.
    + rewrite Hruns.
      now replace (count_runs t + 1 + j) with (count_runs t + S j) by lia.
    + exists t'. split; [assumption | lia].
Qed.

(** Checks that miss the name until [retry_count] reaches 3 end the loop
    with the [RuntimeError]. *)
Lemma poll_gives_up (j : nat) :
  forall (fuel retry_count : nat) (t : trace),
    retry_count + j = 3 ->
    j <= fuel ->
    (forall i, i < j ->
               misses container_name (runtime (count_runs t + i) docker_ps_argv) = true) ->
    exists t',
      poll runtime fuel container_name retry_count t
      = Some (Raise (RuntimeError (msg_not_started container_name)), t')
      /\ count_checks t' = count_checks t + j.
Proof.
  induction j as [|j IH]; intros fuel retry_count t Hrc Hfuel Hmiss.
  - exists t. split; [|lia].
    destruct fuel; simpl;
      now replace (retry_count <=? 2) with false by (symmetry; apply Nat.leb_gt; lia).
  - destruct fuel as [|fuel]; [lia|]. simpl.
    replace (retry_count <=? 2) with true by (symmetry; apply Nat.leb_le; lia).
    rewrite poll_body_misses
      by (specialize (Hmiss 0 ltac:(lia)); now rewrite Nat.add_0_r in Hmiss).
    set (t1 := (t ++ [Run docker_ps_argv]) ++ _).
    assert (Hruns : count_runs t1 = count_runs t + 1)
      by apply (count_runs_check t [msg_not_running container_name] [10]).
    assert (Hchecks : count_checks t1 = count_checks t + 1)
      by apply (count_checks_check t [msg_not_running container_name] [10]).
    destruct (IH fuel (retry_count + 1) t1) as (t' & Hpoll & Hcount).
    + lia.
    + lia.
    + intros i Hi. rewrite Hruns.
      replace (count_runs t + 1 + i) with (count_runs t + S i) by lia.
      apply Hmiss. lia.
    + exists t'. split; [assumption | lia].
Qed.

(** While every check exits with a non-zero status the loop goes on with
    [retry_count] unchanged: no amount of fuel makes it end. *)
Lemma poll_spins_on_check_errors (rc : Z) (fuel : nat) :
  forall (retry_count : nat) (t : trace),
    retry_count <= 2 ->
    (forall n, runtime n docker_ps_argv = Raise (CalledProcessError rc)) ->
    poll runtime fuel container_name retry_count t = None.
Proof.
  induction fuel as [|fuel IH]; intros retry_count t Hrc Herr; simpl;
    replace (retry_count <=? 2) with true by (symmetry; apply Nat.leb_le; lia).
  - reflexivity.
  - rewrite (poll_body_check_error _ _ rc) by apply Herr.
    now apply IH.
Qed.

End WithRuntime.

End LauncherFacts.

Module LauncherSpec.
Import Launcher LauncherFacts.

(** Up to the loop: when [docker-compose up -d] succeeds, the function
    enters the loop with [retry_count = 0], one more subprocess in the trace
    and no status check yet. *)
Lemma launch_container_enters_loop
    (runtime : Runtime) (fuel : nat)
    (container_name db_name db_user db_password db_port db_port_a : string) (t : trace) :
  is_ok (runtime (count_runs t) compose_up_argv) = true ->
  exists t3,
    launch_container runtime fuel container_name db_name db_user db_password
                     db_port db_port_a t
    = poll runtime fuel container_name 0 t3
    /\ count_runs t3 = count_runs t + 1
    /\ count_checks t3 = count_checks t.
Proof.
  intros Hup. unfold launch_container, subprocess_run.
  rewrite count_runs_app, Nat.add_0_r.
  destruct (runtime (count_runs t) compose_up_argv) as [out|e]; [|discriminate].
  eexists; split; [reflexivity|].
  rewrite !count_runs_app, !count_checks_app.
  change (count_runs [Run compose_up_argv]) with 1.
  change (count_runs [WriteFile _ _; Print _]) with 0.
  change (count_runs [Print _; Sleep _]) with 0.
  replace (count_checks [Run compose_up_argv]) with 0 by reflexivity.
  change (count_checks [WriteFile _ _; Print _]) with 0.
  change (count_checks [Print _; Sleep _]) with 0.
  lia.
Qed.

Lemma msg_not_started_names_container (container_name : string) :
  PyStr.contains container_name (msg_not_started container_name) = true.
Proof. unfold msg_not_started. apply PyStrFacts.contains_infix. Qed.

(** C2: the status checks are the subprocesses that follow
    [docker-compose up]; check i is subprocess number [count_runs t + i].
    When check k (k <= 3) shows the name and the checks before it do not
    (their listing lacks it, or they exit with a non-zero status),
    [launch_container] returns "Success" having run exactly k checks; when
    checks 1, 2 and 3 all complete without the name it raises the
    [RuntimeError] whose message names the container, having run exactly 3
    checks. *)
Theorem launch_container_stops_at_first_match_or_after_three_misses
    (runtime : Runtime)
    (container_name db_name db_user db_password db_port db_port_a : string) (t : trace) :
  is_ok (runtime (count_runs t) compose_up_argv) = true ->
  (forall k fuel,
      1 <= k <= 3 ->
      k <= fuel ->
      (forall i, 1 <= i < k ->
                 not_yet container_name (runtime (count_runs t + i) docker_ps_argv) = true) ->
      shows container_name (runtime (count_runs t + k) docker_ps_argv) = true ->
      exists t',
        launch_container runtime fuel container_name db_name db_user db_password
                         db_port db_port_a t
        = Some (Ok "Success", t')
        /\ count_checks t' = count_checks t + k)
  /\ (forall fuel,
         3 <= fuel ->
         (forall i, 1 <= i <= 3 ->
                    misses container_name (runtime (count_runs t + i) docker_ps_argv) = true) ->
         exists t',
           launch_container runtime fuel container_name db_name db_user db_password
                            db_port db_port_a t
           = Some (Raise (RuntimeError (msg_not_started container_name)), t')
           /\ count_checks t' = count_checks t + 3
           /\ PyStr.contains container_name (msg_not_started container_name) = true).
Proof.
  intros Hup. split.
  - intros k fuel Hk Hfuel Hmiss Hshow.
    destruct (launch_container_enters_loop runtime fuel container_name db_name db_user
                db_password db_port db_port_a t Hup) as (t3 & -> & Hruns & Hchecks).
    destruct (poll_finds runtime container_name (k - 1) fuel 0 t3) as (t' & Hpoll & Hcount).
    + lia.
    + lia.
    + intros i Hi. rewrite Hruns.
      replace (count_runs t + 1 + i) with (count_runs t + (i + 1)) by lia.
      apply Hmiss. lia.
    + rewrite Hruns.
      now replace (count_runs t + 1 + (k - 1)) with (count_runs t + k) by lia.
    + exists t'. split; [assumption | lia].
  - intros fuel Hfuel Hmiss.
    destruct (launch_container_enters_loop runtime fuel container_name db_name db_user
                db_password db_port db_port_a t Hup) as (t3 & -> & Hruns & Hchecks).
    destruct (poll_gives_up runtime container_name 3 fuel 0 t3) as (t' & Hpoll & Hcount).
    + lia.
    + lia.
    + intros i Hi. rewrite Hruns.
      replace (count_runs t + 1 + i) with (count_runs t + (i + 1)) by lia.
      apply Hmiss. lia.
    + exists t'. repeat split; [assumption | lia | apply msg_not_started_names_container].
Qed.

(** The runtime of the spec's test: running from the second check on. *)
Lemma launch_container_stops_at_first_match_or_after_three_misses_witness :
  (exists t',
      launch_container (runtime_ready_at 2 ("postgres_weather" +:+ nl)) 3
                       "postgres_weather" "postgres" "user" "pass" "5432" "5433" []
      = Some (Ok "Success", t')
      /\ count_checks t' = 2)
  /\ (exists t',
         launch_container (runtime_ready_at 9 ("postgres_weather" +:+ nl)) 3
                          "postgres_weather" "postgres" "user" "pass" "5432" "5433" []
         = Some (Raise (RuntimeError (msg_not_started "postgres_weather")), t')
         /\ count_checks t' = 3
         /\ PyStr.contains "postgres_weather" (msg_not_started "postgres_weather") = true).
Proof.
  split.
  - apply (proj1 (launch_container_stops_at_first_match_or_after_three_misses
                    (runtime_ready_at 2 ("postgres_weather" +:+ nl))
                    "postgres_weather" "postgres" "user" "pass" "5432" "5433" []
                    eq_refl) 2 3).
    + lia.
    + lia.
    + intros i Hi. assert (i = 1) as -> by lia. reflexivity.
    + reflexivity.
  - apply (proj2 (launch_container_stops_at_first_match_or_after_three_misses
                    (runtime_ready_at 9 ("postgres_weather" +:+ nl))
                    "postgres_weather" "postgres" "user" "pass" "5432" "5433" []
                    eq_refl) 3).
    + lia.
    + intros i Hi.
      assert (i = 1 \/ i = 2 \/ i = 3) as [->|[->| ->]] by lia; reflexivity.
Defined.

(** C3, as the code has it: a status check that raises [CalledProcessError]
    is logged but leaves [retry_count] as it was, so when every check fails
    this way the loop never ends, whatever the fuel, and the [RuntimeError]
    is never raised; a missing [docker] executable ([FileNotFoundError]) is
    not caught at all and ends the function at the first check. *)
Theorem launch_container_check_errors_do_not_use_up_retries
    (fuel : nat)
    (container_name db_name db_user db_password db_port db_port_a : string) (t : trace) :
  launch_container runtime_daemon_down fuel container_name db_name db_user db_password
                   db_port db_port_a t
  = None
  /\ exists t',
      launch_container runtime_no_docker (S fuel) container_name db_name db_user
                       db_password db_port db_port_a t
      = Some (Raise (FileNotFoundError "docker"), t')
      /\ count_checks t' = count_checks t + 1.
Proof.
  split.
  - destruct (launch_container_enters_loop runtime_daemon_down fuel container_name db_name
                db_user db_password db_port db_port_a t eq_refl) as (t3 & -> & _).
    apply (poll_spins_on_check_errors _ _ 1%Z); [lia | reflexivity].
  - destruct (launch_container_enters_loop runtime_no_docker (S fuel) container_name db_name
                db_user db_password db_port db_port_a t eq_refl) as (t3 & -> & _ & Hchecks).
    exists (t3 ++ [Run docker_ps_argv]). split; [reflexivity|].
    rewrite count_checks_app, Hchecks. reflexivity.
Qed.

(** With three failed checks followed by a listing that shows the name, the
    function returns "Success" at the fourth check. *)
Example launch_container_fourth_check_after_three_errors :
  exists t',
    launch_container
      (fun n argv =>
         if bool_decide (argv = docker_ps_argv)
         then if n <=? 3 then Raise (CalledProcessError 1) else Ok "postgres_weather"
         else Ok "")
      4 "postgres_weather" "postgres" "user" "pass" "5432" "5433" []
    = Some (Ok "Success", t')
    /\ count_checks t' = 4.
Proof. eexists. split; reflexivity. Qed.

(** C8, the claim as stated, refuted: a listing that shows only the longer
    name postgres_weather_2 makes the check for postgres_weather succeed,
    although no line of the output is that name. *)
Lemma status_check_is_not_an_exact_match :
  ~ (forall (runtime : Runtime) (container_name : string) (retry_count : nat)
            (t : trace) (stdout : string),
        runtime (count_runs t) docker_ps_argv = Ok stdout ->
        fst (poll_body runtime container_name retry_count t) = Done (Ok "Success") ->
        In container_name (PyStr.splitlines stdout)).
Proof.
  intros H.
  specialize (H (runtime_ready_at 0 ("postgres_weather_2" +:+ nl))
                "postgres_weather" 0 [] ("postgres_weather_2" +:+ nl) eq_refl eq_refl).
  vm_compute in H. destruct H as [H|[]]. discriminate H.
Qed.

(** The filter of the listing command is the same for every container name. *)
Lemma status_check_command_ignores_name
    (runtime : Runtime) (container_name : string) (retry_count : nat) (t : trace) :
  exists t', snd (poll_body runtime container_name retry_count t)
             = (t ++ [Run docker_ps_argv]) ++ t'
             /\ In "name=postgres_weather" docker_ps_argv.
Proof.
  unfold poll_body, subprocess_run.
  destruct (runtime _ _) as [stdout|[]]; [destruct (PyStr.contains _ _)|..];
    eexists; (split; [simpl; try reflexivity | simpl; tauto]).
  all: now rewrite app_nil_r.
Qed.

(** C8, amended: each status check runs the [docker ps] listing command and
    reports the container as running exactly when the command completes and
    its output contains the given name as a substring. *)
Theorem status_check_reports_running_iff_output_contains_name
    (runtime : Runtime) (container_name : string) (retry_count : nat) (t : trace) :
  (exists args t',
      snd (poll_body runtime container_name retry_count t)
      = (t ++ [Run ("docker" :: "ps" :: args)]) ++ t')
  /\ (fst (poll_body runtime container_name retry_count t) = Done (Ok "Success")
      <-> exists stdout pre post,
            runtime (count_runs t) docker_ps_argv = Ok stdout
            /\ stdout = pre +:+ container_name +:+ post).
Proof.
  split.
  - destruct (status_check_command_ignores_name runtime container_name retry_count t)
      as (t' & H & _).
    eexists _, t'. exact H.
  - unfold poll_body, subprocess_run.
    destruct (runtime (count_runs t) docker_ps_argv) as [stdout|e] eqn:E.
    + destruct (PyStr.contains container_name stdout) eqn:C; simpl.
      * split; [intros _|reflexivity].
        apply PyStrFacts.contains_iff in C as (pre & post & C).
        now exists stdout, pre, post.
      * split; [discriminate|].
        intros (stdout' & pre & post & [= <-] & Hs).
        assert (PyStr.contains container_name stdout = true)
          by (apply PyStrFacts.contains_iff; eauto).
        congruence.
    + split.
      * destruct e; simpl; discriminate.
      * intros (stdout' & pre & post & [=] & _).
Qed.

End LauncherSpec.

(** ** Database Gateway *)

Module GatewayFacts.
Import Frame Gateway.

(** Unfold the statements of the gateway down to the engine operations. *)
Ltac run_gateway :=
  unfold create_table, verify_table, load_data, mbind, mret, M_bind, M_ret,
    bind, ret, raise, try_except, print, on_engine;
  simpl.

Section WithEngine.
Context {S : Type} (engine : Engine S).

(** [load_data] runs the write and then the count, and nothing after
    them: its outcome is decided by the count alone. *)
Lemma load_data_after_write
    (df : DataFrame) (table_name : string) (w : World S) (s1 s2 : S) (n : Z) :
  to_sql_replace engine df table_name (db w) = (Ok tt, s1) ->
  select_count engine table_name s1 = (Ok n, s2) ->
  load_data engine df table_name w
  = if Z.eqb n (Z.of_nat (len df))
    then (Ok "Success",
          {| db := s2;
             printed := (printed w ++ ["Запись данных в таблицу daily_weather..."])
                          ++ ["Данные успешно записаны в таблицу " +:+ table_name +:+ "."] |})
    else (Raise (ValueError (msg_count_mismatch n (len df))),
          {| db := s2;
             printed := printed w ++ ["Запись данных в таблицу daily_weather..."] |}).
Proof.
  intros Hwrite Hcount. run_gateway.
  rewrite Hwrite. simpl. rewrite Hcount. simpl.
  now destruct (Z.eqb n (Z.of_nat (len df))).
Qed.

(** An error of the write or of the count query leaves [load_data] as it is. *)
Lemma load_data_propagates_engine_errors
    (df : DataFrame) (table_name : string) (w : World S) :
  (forall e s1,
      to_sql_replace engine df table_name (db w) = (Raise e, s1) ->
      fst (load_data engine df table_name w) = Raise e)
  /\ (forall e s1 s2,
         to_sql_replace engine df table_name (db w) = (Ok tt, s1) ->
         select_count engine table_name s1 = (Raise e, s2) ->
         fst (load_data engine df table_name w) = Raise e).
Proof.
  split.
  - intros e s1 Hwrite. run_gateway. now rewrite Hwrite.
  - intros e s1 s2 Hwrite Hcount. run_gateway.
    rewrite Hwrite. simpl. now rewrite Hcount.
Qed.

(** A successful [load_data] went through a successful write and a
    count equal to the length of the frame. *)
Lemma load_data_success_inv
    (df : DataFrame) (table_name : string) (w w' : World S) (v : string) :
  load_data engine df table_name w = (Ok v, w') ->
  exists s1 s2,
    to_sql_replace engine df table_name (db w) = (Ok tt, s1)
    /\ select_count engine table_name s1 = (Ok (Z.of_nat (len df)), s2)
    /\ db w' = s2.
Proof.
  run_gateway.
  destruct (to_sql_replace engine df table_name (db w)) as [[[]|e] s1] eqn:Hwrite;
    simpl; [|discriminate].
  destruct (select_count engine table_name s1) as [[n|e] s2] eqn:Hcount;
    simpl; [|discriminate].
  destruct (Z.eqb n (Z.of_nat (len df))) eqn:Hn; simpl; [|discriminate].
  intros [= <- <-]. apply Z.eqb_eq in Hn as ->.
  now exists s1, s2.
Qed.

End WithEngine.

(** C1: [load_data] returns success only if the count taken after the
    wholesale replace equals [len] of the input frame; whenever the write
    went through and the count differs it raises the [ValueError] instead
    of returning, and the database is then the one the write (and the count
    query) left: nothing is rolled back. *)
Theorem load_data_succeeds_iff_count_matches
    {S : Type} (engine : Engine S) (df : DataFrame) (table_name : string) (w : World S) :
  (forall v w',
      load_data engine df table_name w = (Ok v, w') ->
      exists s1 s2,
        to_sql_replace engine df table_name (db w) = (Ok tt, s1)
        /\ select_count engine table_name s1 = (Ok (Z.of_nat (len df)), s2)
        /\ db w' = s2)
  /\ (forall s1 s2 n,
         to_sql_replace engine df table_name (db w) = (Ok tt, s1) ->
         select_count engine table_name s1 = (Ok n, s2) ->
         n <> Z.of_nat (len df) ->
         exists w',
           load_data engine df table_name w
           = (Raise (ValueError (msg_count_mismatch n (len df))), w')
           /\ db w' = s2).
Proof.
  split.
  - intros v w'. apply load_data_success_inv.
  - intros s1 s2 n Hwrite Hcount Hn.
    rewrite (load_data_after_write engine df table_name w s1 s2 n Hwrite Hcount).
    apply Z.eqb_neq in Hn. rewrite Hn.
    eexists. split; reflexivity.
Qed.

End GatewayFacts.

Module GatewaySpec.
Import Frame Gateway GatewayFacts.

(** A load that loses a row is caught by the count, with the short table
    left in place; a faithful load passes. *)
Lemma load_data_succeeds_iff_count_matches_witness :
  (exists s1 s2,
      to_sql_replace (counting_stub 0) (DatetimeDates Samples.three_days) "daily_weather" 7
      = (Ok tt, s1)
      /\ select_count (counting_stub 0) "daily_weather" s1 = (Ok 3%Z, s2)
      /\ s2 = 3)
  /\ (exists w',
         load_data (counting_stub 1) (DatetimeDates Samples.three_days) "daily_weather"
                   {| db := 7; printed := [] |}
         = (Raise (ValueError (msg_count_mismatch 2 3)), w')
         /\ db w' = 2).
Proof.
  split.
  - edestruct (proj1 (load_data_succeeds_iff_count_matches
                        (counting_stub 0) (DatetimeDates Samples.three_days)
                        "daily_weather" {| db := 7; printed := [] |}))
      as (s1 & s2 & Hwrite & Hcount & Hdb).
    + vm_compute. reflexivity.
    + exists s1, s2. repeat split; [exact Hwrite | exact Hcount |].
      rewrite <- Hdb. reflexivity.
  - edestruct (proj2 (load_data_succeeds_iff_count_matches
                        (counting_stub 1) (DatetimeDates Samples.three_days)
                        "daily_weather" {| db := 7; printed := [] |}))
      as (w' & Hload & Hdb).
    + reflexivity.
    + reflexivity.
    + discriminate.
    + exists w'. split; [exact Hload | exact Hdb].
Defined.

(** C4, as the code has it: starting from an empty database, [create_table]
    creates the table with the schema of the DDL and [load_data] then
    returns "Success" with the table recreated from the frame: the date
    column is not of type DATE, [weather_code] is not INTEGER and there is
    no primary key. *)
Theorem load_data_replaces_ddl_schema
    (df : DataFrame) (table_name : string) (out : list string) :
  exists w1 w2,
    create_table postgres table_name {| db := ∅; printed := out |} = (Ok "Success", w1)
    /\ db w1 !! table_name = Some {| schema := ddl_schema; contents := DatetimeDates [] |}
    /\ load_data postgres df table_name w1 = (Ok "Success", w2)
    /\ db w2 !! table_name = Some {| schema := pandas_schema df; contents := df |}
    /\ primary_key (pandas_schema df) = None
    /\ columns (pandas_schema df) !! 1 = Some ("weather_code", FLOAT)
    /\ pandas_schema df <> ddl_schema.
Proof.
  eexists _, _. split; [|split; [|split; [|split]]].
  - run_gateway. rewrite lookup_empty. simpl. rewrite lookup_insert_eq.
    rewrite bool_decide_eq_true_2 by eauto. reflexivity.
  - simpl. apply lookup_insert_eq.
  - run_gateway. rewrite lookup_insert_eq. simpl.
    rewrite Z.eqb_refl. reflexivity.
  - simpl. apply lookup_insert_eq.
  - repeat split. discriminate.
Qed.

Example load_data_replaces_ddl_schema_three_days :
  exists w,
    load_data postgres (DatetimeDates Samples.three_days) "daily_weather"
              {| db := Samples.with_daily_weather; printed := [] |}
    = (Ok "Success", w)
    /\ (schema <$> Samples.with_daily_weather !! "daily_weather") = Some ddl_schema
    /\ (primary_key ∘ schema <$> db w !! "daily_weather") = Some None.
Proof. eexists. repeat split. Qed.

(** C9, the claim as stated, refuted: the DDL is refused, the table is
    there from an earlier run, and [create_table] returns "Success". *)
Lemma create_table_does_not_propagate_ddl_error :
  ~ (forall (S : Type) (engine : Engine S) (table_name : string) (w : World S)
            (e : exn) (s1 : S),
        create_table_if_not_exists engine table_name ddl_schema (db w) = (Raise e, s1) ->
        fst (create_table engine table_name w) = Raise e).
Proof.
  intros H.
  specialize (H _ no_ddl "daily_weather"
                {| db := Samples.with_daily_weather; printed := [] |} _ _ eq_refl).
  vm_compute in H. discriminate H.
Qed.

(** C9, amended: whether the DDL succeeds or raises, [create_table] goes on
    to the existence check, run on the state that the DDL attempt left, and
    the outcome of the check is the outcome of the call: "Success" if the
    table is there, the [RuntimeError] if it is not, and the check's own
    error if it raises.  An error raised by the DDL is caught and printed,
    and nothing else becomes of it.  An error of the write or of the count
    query in [load_data] goes to the caller. *)
Theorem create_table_logs_ddl_error_then_verifies
    {S : Type} (engine : Engine S) (table_name : string) (w : World S) :
  let ddl := create_table_if_not_exists engine table_name ddl_schema (db w) in
  let s1 := snd ddl in
  let started := printed w ++ ["Создание таблицы в базе данных..."] in
  let w1 := {| db := s1;
               printed := match fst ddl with
                          | Ok _ => started
                          | Raise e =>
                              started ++ ["Ошибка при создании таблицы: " +:+ str_exn e]
                          end |} in
  create_table engine table_name w = verify_table engine table_name w1
  /\ (forall s2, select_exists engine table_name s1 = (Ok true, s2) ->
                 create_table engine table_name w
                 = (Ok "Success",
                    {| db := s2;
                       printed := printed w1
                                    ++ ["Таблица '" +:+ table_name +:+ "' успешно создана."] |}))
  /\ (forall s2, select_exists engine table_name s1 = (Ok false, s2) ->
                 create_table engine table_name w
                 = (Raise (RuntimeError (msg_not_created table_name)),
                    {| db := s2; printed := printed w1 |}))
  /\ (forall e' s2, select_exists engine table_name s1 = (Raise e', s2) ->
                    create_table engine table_name w
                    = (Raise e', {| db := s2; printed := printed w1 |}))
  /\ (forall df w0 e0 s0,
         to_sql_replace engine df table_name (db w0) = (Raise e0, s0) ->
         fst (load_data engine df table_name w0) = Raise e0)
  /\ (forall df w0 e0 s0 s0',
         to_sql_replace engine df table_name (db w0) = (Ok tt, s0) ->
         select_count engine table_name s0 = (Raise e0, s0') ->
         fst (load_data engine df table_name w0) = Raise e0).
Proof.
  intros ddl s1 started w1.
  assert (Hrun : create_table engine table_name w = verify_table engine table_name w1).
  { subst w1 s1 started ddl. run_gateway.
    now destruct (create_table_if_not_exists engine table_name ddl_schema (db w))
      as [[[]|e] s]. }
  split; [exact Hrun|]. rewrite Hrun. clear Hrun.
  split; [|split; [|split; [|split]]].
  - run_gateway. intros s2 ->. reflexivity.
  - run_gateway. intros s2 ->. reflexivity.
  - run_gateway. intros e' s2 ->. reflexivity.
  - intros df w0. apply (load_data_propagates_engine_errors engine df table_name w0).
  - intros df w0. apply (load_data_propagates_engine_errors engine df table_name w0).
Qed.

(** The DDL is refused: with the table there from an earlier run the call
    returns "Success", without it the call raises the [RuntimeError]. *)
Lemma create_table_logs_ddl_error_then_verifies_witness :
  fst (create_table no_ddl "daily_weather"
                    {| db := Samples.with_daily_weather; printed := [] |})
  = Ok "Success"
  /\ fst (create_table no_ddl "daily_weather" {| db := ∅; printed := [] |})
     = Raise (RuntimeError (msg_not_created "daily_weather")).
Proof.
  split.
  - destruct (create_table_logs_ddl_error_then_verifies
                no_ddl "daily_weather"
                {| db := Samples.with_daily_weather; printed := [] |})
      as (_ & Hfound & _).
    now rewrite (Hfound _ eq_refl).
  - destruct (create_table_logs_ddl_error_then_verifies
                no_ddl "daily_weather" {| db := ∅; printed := [] |})
      as (_ & _ & Hmissing & _).
    now rewrite (Hmissing _ eq_refl).
Defined.

End GatewaySpec.

(** ** The Weather Table: order of floats, [nlargest], [drop_duplicates] *)

Module FrameFacts.
Import Frame.

(** Split every comparison of exponents and mantissas into its cases. *)
Ltac cases_compare :=
  repeat match goal with
    | |- context [Z.compare ?a ?b] => destruct (Z.compare_spec a b); subst
    | |- context [Pos.compare_cont Eq ?a ?b] =>
        change (Pos.compare_cont Eq a b) with (Pos.compare a b)
    | |- context [Pos.compare ?a ?b] => destruct (Pos.compare_spec a b); subst
    end.

Ltac float_cases x := destruct x as [[]|[]| |[] ? ?].

(** [<] on floats is asymmetric. *)
Lemma SFltb_asym (x y : float) : SFltb x y = true -> SFltb y x = false.
Proof.
  unfold SFltb. float_cases x; float_cases y; simpl;
    try discriminate; try reflexivity;
    cases_compare; simpl; try discriminate; try reflexivity; lia.
Qed.

(** Among floats that are not NaN, "not below" is transitive. *)
Lemma SFltb_negtrans (x y z : float) :
  isna x = false -> isna y = false -> isna z = false ->
  SFltb x y = false -> SFltb y z = false -> SFltb x z = false.
Proof.
  unfold SFltb. float_cases x; float_cases y; float_cases z; simpl;
    try discriminate; try reflexivity;
    intros _ _ _; cases_compare; simpl; try discriminate; try reflexivity; lia.
Qed.

(** Among floats that are not NaN, [y <= x] is the negation of [x < y]. *)
Lemma SFleb_ltb (x y : float) :
  isna x = false -> isna y = false -> SFleb y x = negb (SFltb x y).
Proof.
  unfold SFltb, SFleb. float_cases x; float_cases y; simpl;
    try discriminate; try reflexivity;
    intros _ _; cases_compare; simpl; try discriminate; try reflexivity; lia.
Qed.

Lemma filter_all {A : Type} (p : A -> bool) (l : list A) :
  Forall (fun x => p x = true) l -> List.filter p l = l.
Proof. induction 1 as [|x l Hx _ IH]; simpl; [|rewrite Hx, IH]; reflexivity. Qed.

Lemma filter_none {A : Type} (p : A -> bool) (l : list A) :
  Forall (fun x => p x = false) l -> List.filter p l = [].
Proof. induction 1 as [|x l Hx _ IH]; simpl; [|rewrite Hx, IH]; reflexivity. Qed.

Section Sorting.
Context {A : Type} (key : A -> float).

Local Abbreviation not_below := (fun a b : A => SFltb (key a) (key b) = false).
Local Abbreviation present := (fun a : A => isna (key a) = false).

Lemma insert_desc_perm (x : A) (l : list A) :
  Permutation (insert_desc key x l) (x :: l).
Proof.
  induction l as [|y l IH]; simpl; [reflexivity|].
  destruct (SFltb (key x) (key y)); [|reflexivity].
  rewrite IH. apply perm_swap.
Qed.

Lemma sort_desc_perm (l : list A) : Permutation (sort_desc key l) l.
Proof.
  induction l as [|x l IH]; simpl; [reflexivity|].
  rewrite insert_desc_perm. now apply perm_skip.
Qed.

Lemma sort_desc_length (l : list A) : List.length (sort_desc key l) = List.length l.
Proof. apply Permutation_length, sort_desc_perm. Qed.

Lemma insert_desc_sorted (x : A) (l : list A) :
  present x -> Forall present l ->
  StronglySorted not_below l ->
  StronglySorted not_below (insert_desc key x l).
Proof.
  intros Hx Hl Hs. induction Hs as [|y l Hs IH Hy]; simpl.
  - repeat constructor.
  - apply Forall_cons_1 in Hl as [Hpy Hl].
    destruct (SFltb (key x) (key y)) eqn:Hxy.
    + constructor; [now apply IH|].
      rewrite insert_desc_perm. constructor; [now apply SFltb_asym | assumption].
    + constructor; [now constructor|].
      constructor; [assumption|].
      rewrite Forall_forall in Hl, Hy |- *. intros z Hz.
      apply (SFltb_negtrans _ (key y)); auto.
Qed.

(** The sort puts rows without NaN keys in descending order. *)
Lemma sort_desc_sorted (l : list A) :
  Forall present l -> StronglySorted not_below (sort_desc key l).
Proof.
  induction 1 as [|x l Hx Hl IH]; simpl; [constructor|].
  apply insert_desc_sorted; [assumption| |assumption].
  now rewrite sort_desc_perm.
Qed.

(** The sort leaves a descending list as it is. *)
Lemma sort_desc_sorted_id (l : list A) :
  StronglySorted not_below l -> sort_desc key l = l.
Proof.
  induction 1 as [|x l Hs IH Hx]; simpl; [reflexivity|].
  rewrite IH. destruct Hx as [|y l Hxy _]; simpl; [reflexivity|].
  now rewrite Hxy.
Qed.

Lemma StronglySorted_firstn (R : A -> A -> Prop) (n : nat) (l : list A) :
  StronglySorted R l -> StronglySorted R (firstn n l).
Proof.
  intros Hs. revert n. induction Hs as [|x l Hs IH Hx]; intros [|n]; simpl;
    try constructor; [apply IH | now apply Forall_take].
Qed.

Lemma StronglySorted_app_cross (R : A -> A -> Prop) (l1 l2 : list A) :
  StronglySorted R (l1 ++ l2) ->
  forall a b, In a l1 -> In b l2 -> R a b.
Proof.
  induction l1 as [|x l1 IH]; simpl; intros Hs a b Ha Hb; [contradiction|].
  apply StronglySorted_inv in Hs as [Hs Hx].
  destruct Ha as [->|Ha]; [|now apply IH].
  apply (proj1 (List.Forall_forall _ _) Hx). apply in_or_app. now right.
Qed.

(** Without NaN keys [nlargest] is the head of the sorted list. *)
Lemma nlargest_present (n : nat) (l : list A) :
  Forall present l -> nlargest key n l = firstn n (sort_desc key l).
Proof.
  intros Hl. unfold nlargest.
  rewrite filter_all, filter_none, app_nil_r; [reflexivity| |].
  - exact Hl.
  - eapply Forall_impl; [exact Hl|]. simpl. now intros x ->.
Qed.

End Sorting.

(** Sorting commutes with a projection that keeps the keys. *)
Lemma sort_desc_map {A B : Type} (key : A -> float) (key' : B -> float)
    (f : A -> B) (l : list A) :
  (forall x, key' (f x) = key x) ->
  sort_desc key' (map f l) = map f (sort_desc key l).
Proof.
  intros Hkey. induction l as [|x l IH]; simpl; [reflexivity|].
  rewrite IH. generalize (sort_desc key l) as s.
  induction s as [|y s IHs]; simpl; [reflexivity|].
  rewrite !Hkey. destruct (SFltb (key x) (key y)); simpl; [now rewrite IHs | reflexivity].
Qed.

Lemma filter_map_comm {A B : Type} (p : A -> bool) (q : B -> bool) (f : A -> B) (l : list A) :
  (forall x, q (f x) = p x) ->
  List.filter q (map f l) = map f (List.filter p l).
Proof.
  intros Hpq. induction l as [|x l IH]; simpl; [reflexivity|].
  rewrite Hpq, IH. now destruct (p x).
Qed.

Lemma nlargest_map {A B : Type} (key : A -> float) (key' : B -> float)
    (f : A -> B) (n : nat) (l : list A) :
  (forall x, key' (f x) = key x) ->
  nlargest key' n (map f l) = map f (nlargest key n l).
Proof.
  intros Hkey. unfold nlargest.
  rewrite (filter_map_comm (fun r => negb (isna (key r))) _ f)
    by (intros x; now rewrite Hkey).
  rewrite (filter_map_comm (fun r => isna (key r)) _ f)
    by (intros x; now rewrite Hkey).
  rewrite (sort_desc_map key key') by assumption.
  now rewrite <- map_app, firstn_map.
Qed.

Section DropDuplicates.
Context {A K : Type} `{EqDecision K} (key : A -> K).

(** A prefix of rows with fresh, pairwise different keys is kept whole. *)
Lemma drop_duplicates_from_fresh_prefix (l1 l2 : list A) :
  forall seen : list K,
    NoDup (map key l1) ->
    (forall x, In x l1 -> ~ In (key x) seen) ->
    drop_duplicates_from key seen (l1 ++ l2)
    = l1 ++ drop_duplicates_from key (rev (map key l1) ++ seen) l2.
Proof.
  induction l1 as [|x l1 IH]; intros seen Hnd Hfresh; simpl; [reflexivity|].
  apply NoDup_cons in Hnd as [Hx Hnd].
  rewrite bool_decide_eq_false_2
    by (rewrite list_elem_of_In; apply Hfresh; now left).
  rewrite IH; [now rewrite <- app_assoc| assumption |].
  intros y Hy [Heq|Hin].
  - apply Hx. rewrite Heq. apply list_elem_of_In. now apply in_map.
  - apply (Hfresh y); [now right | assumption].
Qed.

(** Rows whose keys have all been seen are all dropped. *)
Lemma drop_duplicates_from_all_seen (l : list A) (seen : list K) :
  (forall x, In x l -> In (key x) seen) ->
  drop_duplicates_from key seen l = [].
Proof.
  induction l as [|x l IH]; intros Hseen; simpl; [reflexivity|].
  rewrite bool_decide_eq_true_2
    by (rewrite list_elem_of_In; apply Hseen; now left).
  apply IH. intros y Hy. apply Hseen. now right.
Qed.

Lemma drop_duplicates_from_Forall (P : A -> Prop) (l : list A) :
  forall seen : list K, Forall P l -> Forall P (drop_duplicates_from key seen l).
Proof.
  induction l as [|x l IH]; intros seen Hl; simpl; [constructor|].
  apply Forall_cons_1 in Hl as [Hx Hl].
  destruct (bool_decide _); [now apply IH|].
  constructor; [assumption | now apply IH].
Qed.

End DropDuplicates.

End FrameFacts.

(** ** Summary Reporter *)

Module ReporterFacts.
Import Frame FrameFacts Reporter.

(** Every month has an entry in [months]: formatting never raises. *)
Lemma format_date_ok (x : Timestamp) : exists s, format_date x = Ok s.
Proof. unfold format_date. destruct (month x); simpl; eauto. Qed.

Lemma series_apply_ok {A B : Type} (f : A -> result B) (l : list A) :
  (forall x, exists y, f x = Ok y) ->
  exists ys, series_apply f l = Ok ys /\ Forall2 (fun x y => f x = Ok y) l ys.
Proof.
  intros Hf. induction l as [|x l (ys & IH & Hall)]; simpl.
  - exists []. split; [reflexivity | constructor].
  - destruct (Hf x) as (y & Hy). rewrite Hy, IH.
    exists (y :: ys). split; [reflexivity | now constructor].
Qed.

Lemma series_apply_inv {A B : Type} (f : A -> result B) (l : list A) (ys : list B) :
  series_apply f l = Ok ys -> Forall2 (fun x y => f x = Ok y) l ys.
Proof.
  revert ys. induction l as [|x l IH]; simpl; intros ys.
  - intros [= <-]. constructor.
  - destruct (f x) as [y|e] eqn:Hy; [|discriminate].
    destruct (series_apply f l) as [ys'|e]; [|discriminate].
    intros [= <-]. constructor; [assumption | now apply IH].
Qed.

Section TopRows.
Variable rows : list (Row Timestamp).
Hypothesis temperatures_present :
  Forall (fun r => isna (temperature_2m_max r) = false) rows.
Hypothesis dates_distinct : NoDup (map date rows).

Local Abbreviation warmest := (nlargest temperature_2m_max 3 rows).
Local Abbreviation of_temp :=
  (fun r : Row Timestamp =>
     {| top_date := date r; top_temperature := temperature_2m_max r; top_wind := NaN |}).

Lemma warmest_sorted :
  StronglySorted
    (fun a b => SFltb (temperature_2m_max a) (temperature_2m_max b) = false) warmest.
Proof.
  rewrite nlargest_present by assumption.
  apply StronglySorted_firstn, sort_desc_sorted. assumption.
Qed.

Lemma warmest_sublist : sublist warmest (sort_desc temperature_2m_max rows).
Proof. rewrite nlargest_present by assumption. apply sublist_take. Qed.

Lemma warmest_present : Forall (fun r => isna (temperature_2m_max r) = false) warmest.
Proof.
  rewrite nlargest_present by assumption.
  apply Forall_take. now rewrite sort_desc_perm.
Qed.

Lemma warmest_dates_distinct : NoDup (map date warmest).
Proof.
  rewrite nlargest_present, <- firstn_map by assumption.
  eapply sublist_NoDup; [|apply sublist_take].
  rewrite (Permutation_map date (sort_desc_perm temperature_2m_max rows)).
  exact dates_distinct.
Qed.

Lemma warmest_length : 3 <= List.length rows -> List.length warmest = 3.
Proof.
  intros Hlen. rewrite nlargest_present by assumption.
  rewrite length_take_le; [reflexivity|]. now rewrite sort_desc_length.
Qed.

(** The pooled, deduplicated frame: the warmest rows with their
    temperature, then rows that come from the wind selection only,
    whose temperature is NaN. *)
Lemma pooled_shape :
  exists wind_only,
    pooled rows = map of_temp warmest ++ wind_only
    /\ Forall (fun r => top_temperature r = NaN) wind_only.
Proof.
  unfold pooled, drop_duplicates, concat, top_temp_dates, top_wind_dates.
  rewrite !map_map.
  rewrite drop_duplicates_from_fresh_prefix.
  - eexists. split; [reflexivity|].
    apply drop_duplicates_from_Forall, Forall_map, Forall_forall.
    reflexivity.
  - rewrite map_map. simpl. apply warmest_dates_distinct.
  - intros x _ [].
Qed.

(** The final [nlargest] keeps the warmest rows and nothing else. *)
Lemma top_dates_are_warmest :
  3 <= List.length rows ->
  nlargest top_temperature 3 (pooled rows) = map of_temp warmest.
Proof.
  intros Hlen. destruct pooled_shape as (wind_only & -> & Hnan).
  assert (Hpresent : Forall (fun r => negb (isna (top_temperature r)) = true)
                       (map of_temp warmest)).
  { apply Forall_map. eapply Forall_impl; [apply warmest_present|].
    simpl. now intros r ->. }
  assert (Habsent : Forall (fun r => negb (isna (top_temperature r)) = false) wind_only).
  { eapply Forall_impl; [exact Hnan|]. simpl. now intros r ->. }
  unfold nlargest at 1.
  rewrite !List.filter_app, (filter_all _ _ Hpresent), (filter_none _ _ Habsent).
  rewrite app_nil_r.
  rewrite (sort_desc_map temperature_2m_max top_temperature) by reflexivity.
  rewrite (sort_desc_sorted_id _ _ warmest_sorted).
  apply take_app_length'. rewrite length_map. symmetry. now apply warmest_length.
Qed.

End TopRows.

(** On a frame of at least three rows with present temperatures and
    distinct dates, [get_dates] formats the dates of the three warmest rows
    and leaves the frame as it was. *)
Lemma get_dates_datetime (parse : string -> option Timestamp) (rows : list (Row Timestamp)) :
  Forall (fun r => isna (temperature_2m_max r) = false) rows ->
  NoDup (map date rows) ->
  3 <= List.length rows ->
  get_dates parse (DatetimeDates rows)
  = (series_apply format_date (map date (nlargest temperature_2m_max 3 rows)),
     DatetimeDates rows).
Proof.
  intros Hpresent Hnodup Hlen. unfold get_dates. simpl.
  rewrite top_dates_are_warmest by assumption.
  now rewrite map_map.
Qed.

End ReporterFacts.

Module ReporterSpec.
Import Frame FrameFacts Reporter ReporterFacts.

(** C6: on a table of at least three rows, with no missing temperature and
    one row per date, [get_dates] returns the formatted dates of the three
    rows with the highest [temperature_2m_max], warmest first: the pooled
    entries that come from the wind selection only have a NaN temperature
    and are not selected, every row left out is at most as warm as every
    row kept, and a table with the same dates and temperatures gives the
    same answer whatever its wind speeds are. *)
Theorem get_dates_returns_three_warmest_dates
    (parse : string -> option Timestamp) (rows : list (Row Timestamp)) :
  3 <= List.length rows ->
  Forall (fun r => isna (temperature_2m_max r) = false) rows ->
  NoDup (map date rows) ->
  let warmest := nlargest temperature_2m_max 3 rows in
  exists formatted_dates,
    get_dates parse (DatetimeDates rows) = (Ok formatted_dates, DatetimeDates rows)
    /\ Forall2 (fun d s => format_date d = Ok s) (map date warmest) formatted_dates
    /\ List.length warmest = 3
    /\ (exists wind_only,
           pooled rows
           = map (fun r => {| top_date := date r;
                              top_temperature := temperature_2m_max r;
                              top_wind := NaN |}) warmest
             ++ wind_only
           /\ Forall (fun r => top_temperature r = NaN) wind_only)
    /\ (forall r, In r warmest -> In r rows)
    /\ (forall r r',
           In r warmest -> In r' rows -> ~ In r' warmest ->
           SFleb (temperature_2m_max r') (temperature_2m_max r) = true)
    /\ (forall rows',
           map (fun r => (date r, temperature_2m_max r)) rows'
           = map (fun r => (date r, temperature_2m_max r)) rows ->
           fst (get_dates parse (DatetimeDates rows')) = Ok formatted_dates).
Proof.
  intros Hlen Hpresent Hnodup warmest.
  destruct (series_apply_ok format_date (map date warmest) format_date_ok)
    as (formatted_dates & Happly & Hformat).
  set (sorted := sort_desc temperature_2m_max rows).
  assert (Hwarmest : warmest = firstn 3 sorted)
    by (apply nlargest_present; assumption).
  assert (Hsplit : sorted = warmest ++ skipn 3 sorted)
    by (rewrite Hwarmest; symmetry; apply firstn_skipn).
  assert (Hin : forall r, In r warmest -> In r rows).
  { intros r Hr. apply (Permutation_in r (sort_desc_perm temperature_2m_max rows)).
    fold sorted. rewrite Hsplit. apply in_or_app. now left. }
  exists formatted_dates. repeat split.
  - rewrite get_dates_datetime by assumption. fold warmest. now rewrite Happly.
  - exact Hformat.
  - now apply warmest_length.
  - now apply pooled_shape.
  - exact Hin.
  - intros r r' Hr Hr' Hout.
    assert (Hrest : In r' (skipn 3 sorted)).
    { apply (Permutation_in r' (Permutation_sym (sort_desc_perm temperature_2m_max rows)))
        in Hr'.
      fold sorted in Hr'. rewrite Hsplit in Hr'.
      apply in_app_or in Hr' as [Hr'|Hr']; [contradiction | assumption]. }
    pose proof (sort_desc_sorted temperature_2m_max rows Hpresent) as Hsorted.
    fold sorted in Hsorted. rewrite Hsplit in Hsorted.
    pose proof (StronglySorted_app_cross _ _ _ Hsorted r r' Hr Hrest) as Hge.
    simpl in Hge.
    assert (Hnan : forall x, In x rows -> isna (temperature_2m_max x) = false)
      by (apply List.Forall_forall; exact Hpresent).
    rewrite SFleb_ltb, Hge; [reflexivity | apply Hnan, Hin, Hr | apply Hnan].
    apply (Permutation_in r' (sort_desc_perm temperature_2m_max rows)).
    fold sorted. rewrite Hsplit. apply in_or_app. now right.
  - intros rows' Heq.
    assert (Hlen' : 3 <= List.length rows').
    { apply (f_equal (@List.length _)) in Heq. rewrite !length_map in Heq. lia. }
    assert (Hpresent' : Forall (fun r => isna (temperature_2m_max r) = false) rows').
    { apply (Forall_map (fun r : Row Timestamp => (date r, temperature_2m_max r))
                        (fun p => isna (snd p) = false)).
      rewrite Heq. now apply Forall_map. }
    assert (Hnodup' : NoDup (map date rows')).
    { rewrite <- (map_map (fun r : Row Timestamp => (date r, temperature_2m_max r)) fst).
      rewrite Heq, map_map. exact Hnodup. }
    rewrite get_dates_datetime by assumption. simpl.
    rewrite <- Happly. f_equal. unfold warmest.
    rewrite <- !(map_map (fun r : Row Timestamp => (date r, temperature_2m_max r)) fst).
    rewrite <- !(nlargest_map temperature_2m_max snd) by reflexivity.
    now rewrite Heq.
Qed.

(** Five days whose two windiest are not among the three warmest. *)
Lemma get_dates_returns_three_warmest_dates_witness :
  exists formatted_dates,
    get_dates parse_iso_date (DatetimeDates Samples.five_days)
    = (Ok formatted_dates, DatetimeDates Samples.five_days)
    /\ Forall2 (fun d s => format_date d = Ok s)
               [Samples.midnight 2024 Sep 1; Samples.midnight 2024 Sep 3;
                Samples.midnight 2024 Aug 30]
               formatted_dates.
Proof.
  destruct (get_dates_returns_three_warmest_dates parse_iso_date Samples.five_days)
    as (formatted_dates & Hget & Hformat & _).
  - simpl. lia.
  - repeat constructor.
  - apply (bool_decide_unpack _). vm_compute. exact I.
  - exists formatted_dates. split; [exact Hget | exact Hformat].
Defined.

Example get_dates_five_days :
  fst (get_dates parse_iso_date (DatetimeDates Samples.five_days))
  = Ok ["1 сентября 2024"; "3 сентября 2024"; "30 августа 2024"].
Proof. vm_compute. reflexivity. Qed.

(** The six orders of three rows. *)
Lemma Permutation_three {A : Type} (l : list A) (x y z : A) :
  Permutation l [x; y; z] ->
  l = [x; y; z] \/ l = [x; z; y] \/ l = [y; x; z]
  \/ l = [y; z; x] \/ l = [z; x; y] \/ l = [z; y; x].
Proof.
  intros H.
  apply Permutation_cons_inv_r in H as (k1 & k2 & -> & H).
  apply Permutation_length_2_inv in H as [H|H];
    destruct k1 as [|a [|b [|c k1]]]; simplify_eq/=; tauto.
Qed.

(** C5: for three rows with distinct dates d1, d2, d3, temperatures 30, 25,
    20 and wind speeds 5, 40, 2, in whatever order the table holds them,
    the two selections are [d1, d2, d3] and [d2, d1, d3], their
    concatenation has six entries, dropping duplicate dates leaves one
    entry per date, and [get_dates] returns d1, d2, d3 formatted, in
    descending order of temperature. *)
Theorem get_dates_pools_and_deduplicates_three_rows
    (parse : string -> option Timestamp) (r1 r2 r3 : Row Timestamp)
    (rows : list (Row Timestamp)) :
  temperature_2m_max r1 = float_of_Z 30 -> wind_speed_10m_max r1 = float_of_Z 5 ->
  temperature_2m_max r2 = float_of_Z 25 -> wind_speed_10m_max r2 = float_of_Z 40 ->
  temperature_2m_max r3 = float_of_Z 20 -> wind_speed_10m_max r3 = float_of_Z 2 ->
  date r1 <> date r2 -> date r1 <> date r3 -> date r2 <> date r3 ->
  Permutation rows [r1; r2; r3] ->
  exists s1 s2 s3,
    format_date (date r1) = Ok s1
    /\ format_date (date r2) = Ok s2
    /\ format_date (date r3) = Ok s3
    /\ get_dates parse (DatetimeDates rows) = (Ok [s1; s2; s3], DatetimeDates rows)
    /\ map fst (top_temp_dates rows) = [date r1; date r2; date r3]
    /\ map fst (top_wind_dates rows) = [date r2; date r1; date r3]
    /\ List.length (concat (top_temp_dates rows) (top_wind_dates rows)) = 6
    /\ map top_date (pooled rows) = [date r1; date r2; date r3]
    /\ map top_temperature (pooled rows) = [float_of_Z 30; float_of_Z 25; float_of_Z 20].
Proof.
  intros Ht1 Hw1 Ht2 Hw2 Ht3 Hw3 H12 H13 H23 Hperm.
  destruct (format_date_ok (date r1)) as [s1 Hs1].
  destruct (format_date_ok (date r2)) as [s2 Hs2].
  destruct (format_date_ok (date r3)) as [s3 Hs3].
  destruct r1 as [d1 c1 t1 tm1 a1 am1 w1], r2 as [d2 c2 t2 tm2 a2 am2 w2],
           r3 as [d3 c3 t3 tm3 a3 am3 w3].
  simpl in *. subst t1 t2 t3 w1 w2 w3.
  assert (Htemp : top_temp_dates rows
                  = [(d1, float_of_Z 30); (d2, float_of_Z 25); (d3, float_of_Z 20)]).
  { apply Permutation_three in Hperm as [->|[->|[->|[->|[->| ->]]]]];
      vm_compute; reflexivity. }
  assert (Hwind : top_wind_dates rows
                  = [(d2, float_of_Z 40); (d1, float_of_Z 5); (d3, float_of_Z 2)]).
  { apply Permutation_three in Hperm as [->|[->|[->|[->|[->| ->]]]]];
      vm_compute; reflexivity. }
  assert (Hpool : pooled rows
                  = [ {| top_date := d1; top_temperature := float_of_Z 30; top_wind := NaN |};
                      {| top_date := d2; top_temperature := float_of_Z 25; top_wind := NaN |};
                      {| top_date := d3; top_temperature := float_of_Z 20; top_wind := NaN |} ]).
  { unfold pooled. rewrite Htemp, Hwind.
    change (concat _ _) with
      ([ {| top_date := d1; top_temperature := float_of_Z 30; top_wind := NaN |};
         {| top_date := d2; top_temperature := float_of_Z 25; top_wind := NaN |};
         {| top_date := d3; top_temperature := float_of_Z 20; top_wind := NaN |} ]
       ++ [ {| top_date := d2; top_temperature := NaN; top_wind := float_of_Z 40 |};
            {| top_date := d1; top_temperature := NaN; top_wind := float_of_Z 5 |};
            {| top_date := d3; top_temperature := NaN; top_wind := float_of_Z 2 |} ]).
    unfold drop_duplicates.
    rewrite drop_duplicates_from_fresh_prefix.
    - rewrite drop_duplicates_from_all_seen; [reflexivity|].
      simpl. intros x [<-|[<-|[<-|[]]]]; simpl; tauto.
    - simpl. rewrite !NoDup_cons, !not_elem_of_cons.
      repeat split; auto using NoDup_nil_2, not_elem_of_nil.
    - intros x _ []. }
  exists s1, s2, s3.
  do 3 (split; [assumption|]).
  split; [|split; [|split; [|split; [|split]]]].
  - unfold get_dates. cbn [to_datetime]. rewrite Hpool.
    replace (nlargest top_temperature 3 _) with
      [ {| top_date := d1; top_temperature := float_of_Z 30; top_wind := NaN |};
        {| top_date := d2; top_temperature := float_of_Z 25; top_wind := NaN |};
        {| top_date := d3; top_temperature := float_of_Z 20; top_wind := NaN |} ]
      by (vm_compute; reflexivity).
    simpl. now rewrite Hs1, Hs2, Hs3.
  - now rewrite Htemp.
  - now rewrite Hwind.
  - now rewrite Htemp, Hwind.
  - now rewrite Hpool.
  - now rewrite Hpool.
Qed.

(** The rows in the order d3, d1, d2. *)
Lemma get_dates_pools_and_deduplicates_three_rows_witness :
  let rows := [ Samples.observation (Samples.midnight 2024 Sep 3) 20 2;
                Samples.observation (Samples.midnight 2024 Sep 1) 30 5;
                Samples.observation (Samples.midnight 2024 Sep 2) 25 40 ] in
  get_dates parse_iso_date (DatetimeDates rows)
  = (Ok ["1 сентября 2024"; "2 сентября 2024"; "3 сентября 2024"], DatetimeDates rows)
  /\ List.length (concat (top_temp_dates rows) (top_wind_dates rows)) = 6
  /\ List.length (pooled rows) = 3.
Proof.
  intros rows.
  destruct (get_dates_pools_and_deduplicates_three_rows parse_iso_date
              (Samples.observation (Samples.midnight 2024 Sep 1) 30 5)
              (Samples.observation (Samples.midnight 2024 Sep 2) 25 40)
              (Samples.observation (Samples.midnight 2024 Sep 3) 20 2)
              rows
              eq_refl eq_refl eq_refl eq_refl eq_refl eq_refl
              ltac:(discriminate) ltac:(discriminate) ltac:(discriminate)
              (Permutation_cons_append _ _))
    as (s1 & s2 & s3 & Hs1 & Hs2 & Hs3 & Hget & _ & _ & Hlen & Hpool & _).
  injection Hs1 as <-. injection Hs2 as <-. injection Hs3 as <-.
  split; [exact Hget|]. split; [exact Hlen|].
  apply (f_equal (@List.length _)) in Hpool. rewrite length_map in Hpool. exact Hpool.
Defined.

(** C7, the claim as stated, refuted: on a table whose dates are text, as
    the docstring of [get_dates] asks, the call replaces the date column of
    the caller's frame by timestamps. *)
Lemma get_dates_changes_text_dates :
  ~ (forall (parse : string -> option Timestamp) (df : DataFrame),
        snd (summary_reporter parse df) = df).
Proof.
  intros H.
  specialize (H parse_iso_date (ObjectDates Samples.three_days_text)).
  vm_compute in H. discriminate H.
Qed.

(** C7, amended: the Summary Reporter leaves a table whose date column
    already holds timestamps, as the Weather Fetcher builds it, exactly as
    it was; on a table whose dates are text, [get_dates] either raises and
    leaves the table as it was or replaces each date by the timestamp
    parsed from it and changes no other column. *)
Theorem summary_reporter_keeps_datetime_table
    (parse : string -> option Timestamp)
    (rows : list (Row Timestamp)) (text_rows : list (Row string)) :
  snd (summary_reporter parse (DatetimeDates rows)) = DatetimeDates rows
  /\ snd (get_dates parse (DatetimeDates rows)) = DatetimeDates rows
  /\ ((is_ok (fst (get_dates parse (ObjectDates text_rows))) = false
       /\ snd (get_dates parse (ObjectDates text_rows)) = ObjectDates text_rows)
      \/ exists rows',
          snd (get_dates parse (ObjectDates text_rows)) = DatetimeDates rows'
          /\ Forall2 (fun r r' => parse (date r) = Some (date r') /\ r' = with_date r (date r'))
                     text_rows rows').
Proof.
  split; [|split].
  - unfold summary_reporter, get_dates. simpl.
    now destruct (series_apply format_date _).
  - reflexivity.
  - unfold get_dates. simpl.
    destruct (series_apply _ text_rows) as [rows'|e] eqn:Hparse.
    + right. exists rows'. split; [reflexivity|].
      apply series_apply_inv in Hparse.
      eapply Forall2_impl; [exact Hparse|].
      simpl. intros r r'. destruct (parse (date r)) as [t|]; [|discriminate].
      intros [= <-]. now split.
    + left. now split.
Qed.

End ReporterSpec.

(** ** Container Launcher: every way [launch_container] can end *)

Module LauncherOutcomes.
Import Launcher LauncherTrace LauncherFacts.

Lemma slept_app (t t' : trace) : slept (t ++ t') = slept t + slept t'.
Proof. induction t as [|e t IH]; simpl; [reflexivity | rewrite IH; lia]. Qed.

Lemma checks_seen_cons (runtime : Runtime) (base c : nat) :
  checks_seen runtime base (S c)
  = runtime base docker_ps_argv :: checks_seen runtime (S base) c.
Proof.
  unfold checks_seen. simpl. rewrite Nat.add_0_r. f_equal.
  rewrite <- seq_shift, map_map. apply map_ext. intros i. f_equal. lia.
Qed.

Lemma checks_seen_snoc (runtime : Runtime) (base c : nat) :
  checks_seen runtime base (S c)
  = checks_seen runtime base c ++ [runtime (base + c) docker_ps_argv].
Proof. unfold checks_seen. now rewrite seq_S, map_app. Qed.

Lemma checks_seen_length (runtime : Runtime) (base c : nat) :
  List.length (checks_seen runtime base c) = c.
Proof. unfold checks_seen. now rewrite length_map, length_seq. Qed.

(** The last of the results seen is the result of the last check. *)
Lemma checks_seen_last (runtime : Runtime) (base c : nat)
    (before : list (result string)) (last : result string) :
  checks_seen runtime base c = before ++ [last] ->
  1 <= c /\ last = runtime (base + (c - 1)) docker_ps_argv.
Proof.
  destruct c as [|c]; intros H.
  - destruct before; discriminate H.
  - rewrite checks_seen_snoc in H. apply app_inj_tail in H as [_ <-].
    split; [lia|]. f_equal. lia.
Qed.

Section WithRuntime.
Variable runtime : Runtime.
Variable container_name : string.

(** A pass through the loop body that goes round again: one check was run,
    its result did not show the name, and ten seconds were slept exactly when
    the listing completed without the name. *)
Lemma poll_body_again (retry_count retry_count' : nat) (t t1 : trace) :
  poll_body runtime container_name retry_count t = (Again retry_count', t1) ->
  exists pre k,
    t1 = t ++ pre
    /\ forallb is_loop_event pre = true
    /\ count_runs pre = 1
    /\ count_checks pre = 1
    /\ slept pre = 10 * k
    /\ retry_count' = retry_count + k
    /\ not_yet container_name (runtime (count_runs t) docker_ps_argv) = true
    /\ count_misses container_name [runtime (count_runs t) docker_ps_argv] = k.
Proof.
  unfold poll_body, subprocess_run, count_misses.
  destruct (runtime (count_runs t) docker_ps_argv) as [stdout|e]; simpl.
  - destruct (PyStr.contains container_name stdout); [discriminate|].
    intros [= <- <-].
    exists [Run docker_ps_argv; Print (msg_not_running container_name); Sleep 10], 1.
    rewrite <- app_assoc. repeat split.
  - destruct e; try discriminate.
    intros [= <- <-].
    exists [Run docker_ps_argv; Print (msg_check_error returncode)], 0.
    rewrite <- app_assoc. repeat split. lia.
Qed.

(** A pass through the loop body that ends the function: one check was run
    and either its listing shows the name or it raised something other than
    [CalledProcessError]. *)
Lemma poll_body_done (retry_count : nat) (t t1 : trace) (r : result string) :
  poll_body runtime container_name retry_count t = (Done r, t1) ->
  exists pre,
    t1 = t ++ pre
    /\ forallb is_loop_event pre = true
    /\ count_runs pre = 1
    /\ count_checks pre = 1
    /\ slept pre = 0
    /\ count_misses container_name [runtime (count_runs t) docker_ps_argv] = 0
    /\ ((r = Ok "Success"
         /\ exists stdout,
             runtime (count_runs t) docker_ps_argv = Ok stdout
             /\ PyStr.contains container_name stdout = true)
        \/ (exists e,
               r = Raise e
               /\ runtime (count_runs t) docker_ps_argv = Raise e
               /\ not_yet container_name (Raise e) = false)).
Proof.
  unfold poll_body, subprocess_run, count_misses.
  destruct (runtime (count_runs t) docker_ps_argv) as [stdout|e]; simpl.
  - destruct (PyStr.contains container_name stdout) eqn:C; [|discriminate].
    intros [= <- <-].
    exists [Run docker_ps_argv; Print (msg_running container_name)].
    rewrite <- app_assoc. repeat split. left. split; [reflexivity|]. now exists stdout.
  - destruct e; try discriminate; intros [= <- <-];
      exists [Run docker_ps_argv]; repeat split; right; eexists; repeat split.
Qed.

(** What a finished loop has done: [c] checks, of which [m] completed without
    the name; it slept ten seconds after each of those; and it ended in one
    of three ways. *)
Lemma poll_outcome (fuel : nat) :
  forall (retry_count : nat) (t t' : trace) (r : result string),
    poll runtime fuel container_name retry_count t = Some (r, t') ->
    exists c rest,
      t' = t ++ rest
      /\ forallb is_loop_event rest = true
      /\ count_runs rest = c
      /\ count_checks rest = c
      /\ slept rest
         = 10 * count_misses container_name (checks_seen runtime (count_runs t) c)
      /\ ((r = Ok "Success"
           /\ retry_count
              + count_misses container_name (checks_seen runtime (count_runs t) c) <= 2
           /\ exists before stdout,
               checks_seen runtime (count_runs t) c = before ++ [Ok stdout]
               /\ PyStr.contains container_name stdout = true
               /\ Forall (fun x => not_yet container_name x = true) before)
          \/ (exists e before,
                 r = Raise e
                 /\ retry_count
                    + count_misses container_name (checks_seen runtime (count_runs t) c) <= 2
                 /\ checks_seen runtime (count_runs t) c = before ++ [Raise e]
                 /\ not_yet container_name (Raise e) = false
                 /\ Forall (fun x => not_yet container_name x = true) before)
          \/ (r = Raise (RuntimeError (msg_not_started container_name))
              /\ Forall (fun x => not_yet container_name x = true)
                        (checks_seen runtime (count_runs t) c)
              /\ (retry_count <= 3 ->
                  retry_count
                  + count_misses container_name (checks_seen runtime (count_runs t) c) = 3))).
Proof.
  induction fuel as [|fuel IH]; intros retry_count t t' r; cbn [poll];
    destruct (retry_count <=? 2) eqn:Hrc.
  - discriminate.
  - intros [= <- <-]. apply Nat.leb_gt in Hrc.
    exists 0, []. rewrite app_nil_r.
    do 5 (split; [reflexivity|]).
    right. right. split; [reflexivity|]. split; [apply Forall_nil_2|].
    unfold count_misses, checks_seen. simpl. lia.
  - apply Nat.leb_le in Hrc.
    destruct (poll_body runtime container_name retry_count t) as [[r0|retry_count'] t1] eqn:Hbody.
    + intros [= <- <-].
      apply poll_body_done in Hbody
          as (pre & -> & Hloop & Hruns & Hchecks & Hslept & Hmiss & Hend).
      exists 1, pre. rewrite checks_seen_cons.
      change (checks_seen runtime (S (count_runs t)) 0) with (@nil (result string)).
      rewrite Hmiss, Nat.mul_0_r, Nat.add_0_r.
      do 5 (split; [assumption || reflexivity|]).
      destruct Hend as [[-> (stdout & Hout & Hshow)]|(e & -> & Hout & Hnot)].
      * left. split; [reflexivity|]. split; [assumption|].
        exists [], stdout. rewrite Hout.
        split; [reflexivity|]. split; [assumption | apply Forall_nil_2].
      * right. left. exists e, []. rewrite Hout.
        split; [reflexivity|]. split; [assumption|].
        split; [reflexivity|]. split; [assumption | apply Forall_nil_2].
    + intros Hpoll.
      apply poll_body_again in Hbody
          as (pre & k & -> & Hloop & Hruns & Hchecks & Hslept & -> & Hnot & Hmiss).
      apply IH in Hpoll
          as (c & rest & -> & Hloop' & Hruns' & Hchecks' & Hslept' & Hend).
      rewrite count_runs_app, Hruns, Nat.add_1_r in Hslept', Hend.
      set (seen' := checks_seen runtime (S (count_runs t)) c) in *.
      assert (Hcount : count_misses container_name
                         (checks_seen runtime (count_runs t) (S c))
                       = k + count_misses container_name seen').
      { rewrite checks_seen_cons. fold seen'. rewrite <- Hmiss.
        unfold count_misses. cbn [List.filter].
        destruct (misses container_name _); cbn [List.length]; lia. }
      assert (Hk : k <= 1).
      { rewrite <- Hmiss. unfold count_misses. cbn [List.filter].
        destruct (misses container_name _); cbn [List.length]; lia. }
      exists (S c), (pre ++ rest). rewrite Hcount, checks_seen_cons. fold seen'.
      split; [now rewrite app_assoc|].
      split; [rewrite forallb_app, Hloop, Hloop'; reflexivity|].
      split; [rewrite count_runs_app; lia|].
      split; [rewrite count_checks_app; lia|].
      split; [rewrite slept_app; lia|].
      destruct Hend as [(-> & Hle & before & stdout & Hseen & Hshow & Hbefore)
                       |[(e & before & -> & Hle & Hseen & Hnote & Hbefore)
                        |(-> & Hall & Hthree)]].
      * left. split; [reflexivity|]. split; [lia|].
        exists (runtime (count_runs t) docker_ps_argv :: before), stdout.
        split; [now rewrite Hseen|]. split; [assumption | now constructor].
      * right. left.
        exists e, (runtime (count_runs t) docker_ps_argv :: before).
        split; [reflexivity|]. split; [lia|].
        split; [now rewrite Hseen|]. split; [assumption | now constructor].
      * right. right. split; [reflexivity|]. split; [now constructor | lia].
  - intros [= <- <-]. apply Nat.leb_gt in Hrc.
    exists 0, []. rewrite app_nil_r.
    do 5 (split; [reflexivity|]).
    right. right. split; [reflexivity|]. split; [apply Forall_nil_2|].
    unfold count_misses, checks_seen. simpl. lia.
Qed.

End WithRuntime.

(** What [launch_container] leaves in the trace before the loop. *)
Lemma launch_container_inv
    (runtime : Runtime) (fuel : nat)
    (container_name db_name db_user db_password db_port db_port_a : string)
    (t t' : trace) (r : result string) :
  launch_container runtime fuel container_name db_name db_user db_password
                   db_port db_port_a t
  = Some (r, t') ->
  let descriptor :=
    docker_compose_content container_name db_name db_user db_password db_port db_port_a in
  let head := [WriteFile "docker-compose.yml" descriptor; Print msg_starting;
               Run compose_up_argv] in
  (exists e,
      runtime (count_runs t) compose_up_argv = Raise e /\ r = Raise e /\ t' = t ++ head)
  \/ (exists out,
         runtime (count_runs t) compose_up_argv = Ok out
         /\ poll runtime fuel container_name 0 (t ++ head ++ [Print msg_waiting; Sleep 10])
            = Some (r, t')).
Proof.
  unfold launch_container, subprocess_run.
  rewrite count_runs_app. change (count_runs [WriteFile _ _; Print _]) with 0.
  rewrite Nat.add_0_r, <- !app_assoc.
  destruct (runtime (count_runs t) compose_up_argv) as [out|e]; simpl.
  - intros H. right. now exists out.
  - intros [= <- <-]. left. now exists e.
Qed.

Lemma launch_container_up_failed
    (runtime : Runtime) (fuel : nat)
    (container_name db_name db_user db_password db_port db_port_a : string)
    (t : trace) (e : exn) :
  runtime (count_runs t) compose_up_argv = Raise e ->
  launch_container runtime fuel container_name db_name db_user db_password
                   db_port db_port_a t
  = Some (Raise e,
          (t ++ [WriteFile "docker-compose.yml"
                   (docker_compose_content container_name db_name db_user db_password
                                           db_port db_port_a);
                 Print msg_starting])
            ++ [Run compose_up_argv]).
Proof.
  intros Hup. unfold launch_container, subprocess_run.
  rewrite count_runs_app. change (count_runs [WriteFile _ _; Print _]) with 0.
  now rewrite Nat.add_0_r, Hup.
Qed.

(** X1: when [docker-compose up -d] fails, [launch_container] raises that
    error at once, whatever the fuel: the descriptor has been written, no
    status check is run and nothing is slept. *)
Theorem launch_container_compose_up_failure_is_fatal
    (runtime : Runtime) (fuel : nat)
    (container_name db_name db_user db_password db_port db_port_a : string)
    (t : trace) (e : exn) :
  runtime (count_runs t) compose_up_argv = Raise e ->
  exists t',
    launch_container runtime fuel container_name db_name db_user db_password
                     db_port db_port_a t
    = Some (Raise e, t')
    /\ In (WriteFile "docker-compose.yml"
                     (docker_compose_content container_name db_name db_user db_password
                                             db_port db_port_a)) t'
    /\ count_checks t' = count_checks t
    /\ slept t' = slept t.
Proof.
  intros Hup. rewrite (launch_container_up_failed _ _ _ _ _ _ _ _ _ _ Hup).
  eexists. split; [reflexivity|]. split; [|split].
  - apply in_or_app. left. apply in_or_app. right. now left.
  - rewrite !count_checks_app.
    change (count_checks [WriteFile _ _; Print _]) with 0.
    replace (count_checks [Run compose_up_argv]) with 0 by reflexivity. lia.
  - rewrite !slept_app. simpl. lia.
Qed.

Lemma launch_container_compose_up_failure_is_fatal_witness :
  exists t',
    launch_container runtime_compose_fails 0 "postgres_weather" "postgres" "user" "pass"
                     "5432" "5433" []
    = Some (Raise (CalledProcessError 1), t')
    /\ count_checks t' = 0
    /\ slept t' = 0.
Proof.
  destruct (launch_container_compose_up_failure_is_fatal
              runtime_compose_fails 0 "postgres_weather" "postgres" "user" "pass"
              "5432" "5433" [] (CalledProcessError 1) eq_refl)
    as (t' & Hrun & _ & Hchecks & Hslept).
  exists t'. repeat split; assumption.
Defined.

(** X2: [launch_container] returns a value only from a status check whose
    listing contains the container name, and the value is "Success": it never
    reports success without the runtime having shown the name. *)
Theorem launch_container_success_is_sound
    (runtime : Runtime) (fuel : nat)
    (container_name db_name db_user db_password db_port db_port_a : string)
    (t t' : trace) (v : string) :
  launch_container runtime fuel container_name db_name db_user db_password
                   db_port db_port_a t
  = Some (Ok v, t') ->
  v = "Success"
  /\ exists c stdout,
      1 <= c
      /\ count_checks t' = count_checks t + c
      /\ runtime (count_runs t + c) docker_ps_argv = Ok stdout
      /\ PyStr.contains container_name stdout = true.
Proof.
  intros Hrun. apply launch_container_inv in Hrun as [(e & _ & [=] & _)|(out & _ & Hpoll)].
  apply poll_outcome in Hpoll
      as (c & rest & -> & _ & _ & Hchecks & _ & Hend).
  rewrite !count_runs_app in Hend.
  change (count_runs [WriteFile _ _; Print _; Run compose_up_argv]) with 1 in Hend.
  change (count_runs [Print _; Sleep _]) with 0 in Hend.
  rewrite Nat.add_0_r in Hend.
  destruct Hend as [([= <-] & _ & before & stdout & Hseen & Hshow & _)
                   |[(e & before & [=] & _)|([=] & _)]].
  split; [reflexivity|].
  apply checks_seen_last in Hseen as [Hc Hlast].
  exists c, stdout. split; [assumption|]. split; [|split; [|assumption]].
  - rewrite !count_checks_app, Hchecks.
    change (count_checks [WriteFile _ _; Print _; Run compose_up_argv]) with 0.
    change (count_checks [Print _; Sleep _]) with 0. lia.
  - rewrite Hlast. f_equal. lia.
Qed.

Lemma launch_container_success_is_sound_witness :
  exists c stdout,
    1 <= c
    /\ runtime_ready_at 2 ("postgres_weather" +:+ nl) (0 + c) docker_ps_argv = Ok stdout
    /\ PyStr.contains "postgres_weather" stdout = true.
Proof.
  edestruct (launch_container_success_is_sound
               (runtime_ready_at 2 ("postgres_weather" +:+ nl)) 3
               "postgres_weather" "postgres" "user" "pass" "5432" "5433" [])
    as (_ & c & stdout & Hc & _ & Hout & Hshow).
  - vm_compute. reflexivity.
  - exists c, stdout. repeat split; assumption.
Defined.

(** X3: with a runtime that raises only what [subprocess.run] raises, the
    [RuntimeError] means that the loop gave up: its message is the one that
    names the container, exactly three of the checks run completed without
    the name, every other check exited with a non-zero status, and forty
    seconds were slept in all. *)
Theorem launch_container_gives_up_after_exactly_three_misses
    (runtime : Runtime) (fuel : nat)
    (container_name db_name db_user db_password db_port db_port_a : string)
    (t t' : trace) (msg : string) :
  (forall n argv m, runtime n argv <> Raise (RuntimeError m)) ->
  launch_container runtime fuel container_name db_name db_user db_password
                   db_port db_port_a t
  = Some (Raise (RuntimeError msg), t') ->
  msg = msg_not_started container_name
  /\ exists c,
      count_checks t' = count_checks t + c
      /\ count_misses container_name (checks_seen runtime (count_runs t + 1) c) = 3
      /\ Forall (fun x => not_yet container_name x = true)
                (checks_seen runtime (count_runs t + 1) c)
      /\ slept t' = slept t + 40.
Proof.
  intros Hruntime Hrun.
  apply launch_container_inv in Hrun as [(e & Hup & [= <-] & _)|(out & _ & Hpoll)];
    [now apply Hruntime in Hup|].
  apply poll_outcome in Hpoll
      as (c & rest & -> & _ & _ & Hchecks & Hslept & Hend).
  rewrite !count_runs_app in Hslept, Hend.
  change (count_runs [WriteFile _ _; Print _; Run compose_up_argv]) with 1 in Hslept, Hend.
  change (count_runs [Print _; Sleep _]) with 0 in Hslept, Hend.
  rewrite Nat.add_0_r in Hslept, Hend.
  destruct Hend as [([=] & _)
                   |[(e & before & [= <-] & _ & Hseen & _)
                    |([= ->] & Hall & Hthree)]].
  - apply checks_seen_last in Hseen as [_ Hlast]. symmetry in Hlast.
    now apply Hruntime in Hlast.
  - split; [reflexivity|]. exists c.
    specialize (Hthree ltac:(lia)). simpl in Hthree.
    split; [|split; [assumption|split; [assumption|]]].
    + rewrite !count_checks_app, Hchecks.
      change (count_checks [WriteFile _ _; Print _; Run compose_up_argv]) with 0.
      change (count_checks [Print _; Sleep _]) with 0. lia.
    + rewrite !slept_app, Hslept, Hthree. simpl. lia.
Qed.

Lemma launch_container_gives_up_after_exactly_three_misses_witness :
  exists c,
    count_misses "postgres_weather"
                 (checks_seen (runtime_ready_at 9 "postgres_weather") (0 + 1) c) = 3.
Proof.
  edestruct (launch_container_gives_up_after_exactly_three_misses
               (runtime_ready_at 9 "postgres_weather") 3
               "postgres_weather" "postgres" "user" "pass" "5432" "5433" [])
    as (_ & c & _ & Hmisses & _).
  - intros n argv m. unfold runtime_ready_at.
    destruct (bool_decide _); [destruct (9 <=? n)|]; discriminate.
  - vm_compute. reflexivity.
  - exists c. exact Hmisses.
Defined.

(** X4: whenever [launch_container] returns or raises, it has slept at most
    forty seconds in all, and at least ten and at most thirty when it returns
    "Success". *)
Theorem launch_container_sleeps_at_most_forty_seconds
    (runtime : Runtime) (fuel : nat)
    (container_name db_name db_user db_password db_port db_port_a : string)
    (t t' : trace) (r : result string) :
  launch_container runtime fuel container_name db_name db_user db_password
                   db_port db_port_a t
  = Some (r, t') ->
  slept t <= slept t' <= slept t + 40
  /\ (is_ok r = true -> slept t + 10 <= slept t' <= slept t + 30).
Proof.
  intros Hrun.
  apply launch_container_inv in Hrun as [(e & _ & -> & ->)|(out & _ & Hpoll)].
  - rewrite slept_app. simpl. split; [lia | discriminate].
  - apply poll_outcome in Hpoll as (c & rest & -> & _ & _ & _ & Hslept & Hend).
    rewrite !slept_app, Hslept. simpl.
    destruct Hend as [(-> & Hle & _)
                     |[(e & before & -> & Hle & _)|(-> & _ & Hthree)]];
      simpl in *.
    + split; [lia | intros _; lia].
    + split; [lia | discriminate].
    + specialize (Hthree ltac:(lia)). split; [lia | discriminate].
Qed.

Lemma launch_container_sleeps_at_most_forty_seconds_witness :
  exists t',
    launch_container (runtime_ready_at 2 "postgres_weather") 3
                     "postgres_weather" "postgres" "user" "pass" "5432" "5433" []
    = Some (Ok "Success", t')
    /\ slept t' <= 40
    /\ 10 <= slept t' <= 30.
Proof.
  eexists. split; [vm_compute; reflexivity|].
  edestruct (launch_container_sleeps_at_most_forty_seconds
               (runtime_ready_at 2 "postgres_weather") 3
               "postgres_weather" "postgres" "user" "pass" "5432" "5433" [])
    as (Hforty & Hthirty).
  - vm_compute. reflexivity.
  - split; [exact (proj2 Hforty) | exact (Hthirty eq_refl)].
Defined.

(** X5: whatever the runtime does, [launch_container] first writes the
    descriptor to docker-compose.yml, then runs [docker-compose up -d] once,
    and after that runs no command but the listing command of the status
    check and writes no file. *)
Theorem launch_container_runs_only_compose_up_and_listing
    (runtime : Runtime) (fuel : nat)
    (container_name db_name db_user db_password db_port db_port_a : string)
    (t t' : trace) (r : result string) :
  launch_container runtime fuel container_name db_name db_user db_password
                   db_port db_port_a t
  = Some (r, t') ->
  exists rest,
    t' = t ++ [WriteFile "docker-compose.yml"
                 (docker_compose_content container_name db_name db_user db_password
                                         db_port db_port_a);
               Print msg_starting;
               Run compose_up_argv] ++ rest
    /\ forallb is_loop_event rest = true.
Proof.
  intros Hrun.
  apply launch_container_inv in Hrun as [(e & _ & _ & ->)|(out & _ & Hpoll)].
  - exists []. now rewrite app_nil_r.
  - apply poll_outcome in Hpoll as (c & rest & -> & Hloop & _).
    exists ([Print msg_waiting; Sleep 10] ++ rest). split.
    + now rewrite <- !app_assoc.
    + rewrite forallb_app, Hloop. reflexivity.
Qed.

Lemma launch_container_runs_only_compose_up_and_listing_witness :
  exists t' rest,
    launch_container runtime_no_docker 1 "other_db" "postgres" "user" "pass" "5432" "5433" []
    = Some (Raise (FileNotFoundError "docker"), t')
    /\ t' = [] ++ [WriteFile "docker-compose.yml"
                     (docker_compose_content "other_db" "postgres" "user" "pass"
                                             "5432" "5433");
                   Print msg_starting;
                   Run compose_up_argv] ++ rest
    /\ forallb is_loop_event rest = true.
Proof.
  eexists. 
  edestruct (launch_container_runs_only_compose_up_and_listing
               runtime_no_docker 1 "other_db" "postgres" "user" "pass" "5432" "5433" [])
    as (rest & Htrace & Hloop).
  - vm_compute. reflexivity.
  - exists rest. split; [vm_compute; reflexivity|]. split; assumption.
Defined.

Section Termination.
Variable runtime : Runtime.
Variable container_name : string.

(** A loop whose next [n] checks do not exit with a non-zero status ends
    within [n] passes once [retry_count + n] reaches 3. *)
Lemma poll_terminates (n : nat) :
  forall (fuel retry_count : nat) (t : trace),
    retry_count + n = 3 ->
    n <= fuel ->
    (forall i rc, i < n ->
                  runtime (count_runs t + i) docker_ps_argv <> Raise (CalledProcessError rc)) ->
    exists r t',
      poll runtime fuel container_name retry_count t = Some (r, t')
      /\ count_checks t' <= count_checks t + n.
Proof.
  induction n as [|n IH]; intros fuel retry_count t Hrc Hfuel Hclean.
  - exists (Raise (RuntimeError (msg_not_started container_name))), t.
    split; [|lia].
    destruct fuel; cbn [poll];
      now replace (retry_count <=? 2) with false by (symmetry; apply Nat.leb_gt; lia).
  - destruct fuel as [|fuel]; [lia|]. cbn [poll].
    replace (retry_count <=? 2) with true by (symmetry; apply Nat.leb_le; lia).
    destruct (poll_body runtime container_name retry_count t)
      as [[r|retry_count'] t1] eqn:Hbody.
    + apply poll_body_done in Hbody as (pre & -> & _ & _ & Hchecks & _).
      exists r, (t ++ pre). split; [reflexivity|]. rewrite count_checks_app. lia.
    + pose proof Hbody as Hagain.
      apply poll_body_again in Hagain
          as (pre & k & -> & _ & Hruns & Hchecks & _ & -> & _ & Hmiss).
      assert (k = 1) as ->.
      { unfold poll_body, subprocess_run in Hbody.
        pose proof (Hclean 0) as Hfirst. rewrite Nat.add_0_r in Hfirst.
        destruct (runtime (count_runs t) docker_ps_argv) as [stdout|e].
        - destruct (PyStr.contains container_name stdout) eqn:C; [discriminate|].
          rewrite <- Hmiss. unfold count_misses. simpl. now rewrite C.
        - destruct e; try discriminate. now destruct (Hfirst returncode ltac:(lia)). }
      destruct (IH fuel (retry_count + 1) (t ++ pre)) as (r & t' & Hpoll & Hcount).
      * lia.
      * lia.
      * intros i rc Hi. rewrite count_runs_app, Hruns.
        replace (count_runs t + 1 + i) with (count_runs t + S i) by lia.
        apply Hclean. lia.
      * exists r, t'. split; [assumption|].
        rewrite count_checks_app in Hcount. lia.
Qed.

End Termination.

(** X6: if [docker-compose up -d] does not fail and none of the first three
    status checks exits with a non-zero status, three passes through the loop
    are enough: [launch_container] returns or raises after at most three
    checks. *)
Theorem launch_container_ends_within_three_clean_checks
    (runtime : Runtime) (fuel : nat)
    (container_name db_name db_user db_password db_port db_port_a : string)
    (t : trace) :
  3 <= fuel ->
  (forall i rc, 1 <= i <= 3 ->
                runtime (count_runs t + i) docker_ps_argv <> Raise (CalledProcessError rc)) ->
  exists r t',
    launch_container runtime fuel container_name db_name db_user db_password
                     db_port db_port_a t
    = Some (r, t')
    /\ count_checks t' <= count_checks t + 3.
Proof.
  intros Hfuel Hclean.
  destruct (runtime (count_runs t) compose_up_argv) as [out|e] eqn:Hup.
  - destruct (LauncherSpec.launch_container_enters_loop runtime fuel container_name db_name
                db_user db_password db_port db_port_a t)
      as (t3 & -> & Hruns & Hchecks); [now rewrite Hup|].
    destruct (poll_terminates runtime container_name 3 fuel 0 t3) as (r & t' & Hpoll & Hcount).
    + reflexivity.
    + assumption.
    + intros i rc Hi. rewrite Hruns.
      replace (count_runs t + 1 + i) with (count_runs t + (i + 1)) by lia.
      apply Hclean. lia.
    + exists r, t'. split; [assumption | lia].
  - rewrite (launch_container_up_failed _ _ _ _ _ _ _ _ _ _ Hup).
    eexists _, _. split; [reflexivity|].
    rewrite !count_checks_app.
    change (count_checks [WriteFile _ _; Print _]) with 0.
    replace (count_checks [Run compose_up_argv]) with 0 by reflexivity. lia.
Qed.

Lemma launch_container_ends_within_three_clean_checks_witness :
  exists r t',
    launch_container runtime_no_docker 3 "postgres_weather" "postgres" "user" "pass"
                     "5432" "5433" []
    = Some (r, t')
    /\ count_checks t' <= 0 + 3.
Proof.
  apply (launch_container_ends_within_three_clean_checks
           runtime_no_docker 3 "postgres_weather" "postgres" "user" "pass"
           "5432" "5433" []).
  - lia.
  - intros i rc _. unfold runtime_no_docker.
    destruct (bool_decide _); discriminate.
Defined.

End LauncherOutcomes.

(** ** Database Gateway: the reference engine, and what success means *)

Module GatewayMore.
Import Frame Gateway GatewayFacts.

Lemma create_table_postgres
    (table_name : string) (tables : gmap string Table) (out : list string) :
  create_table postgres table_name {| db := tables; printed := out |}
  = (Ok "Success",
     {| db := match tables !! table_name with
              | Some _ => tables
              | None => <[table_name := {| schema := ddl_schema;
                                            contents := DatetimeDates [] |}]> tables
              end;
        printed := (out ++ ["Создание таблицы в базе данных..."])
                     ++ ["Таблица '" +:+ table_name +:+ "' успешно создана."] |}).
Proof.
  run_gateway. destruct (tables !! table_name) as [tbl|] eqn:Hlookup; simpl.
  - rewrite Hlookup. rewrite bool_decide_eq_true_2 by eauto. reflexivity.
  - rewrite lookup_insert_eq. rewrite bool_decide_eq_true_2 by eauto. reflexivity.
Qed.

Lemma load_data_postgres
    (df : DataFrame) (table_name : string) (tables : gmap string Table) (out : list string) :
  load_data postgres df table_name {| db := tables; printed := out |}
  = (Ok "Success",
     {| db := <[table_name := {| schema := pandas_schema df; contents := df |}]> tables;
        printed := (out ++ ["Запись данных в таблицу daily_weather..."])
                     ++ ["Данные успешно записаны в таблицу " +:+ table_name +:+ "."] |}).
Proof.
  run_gateway. rewrite lookup_insert_eq. simpl. now rewrite Z.eqb_refl.
Qed.

(** X7: on the reference engine, for the table of the script,
    [create_table] always returns "Success"; a table that is already there
    keeps its schema and its rows, whatever they are, a missing one is
    created empty with the schema of the DDL, no other table is touched, and
    a second call changes nothing. *)
Theorem create_table_keeps_existing_table (w : World (gmap string Table)) :
  let table_name := Pipeline.TABLE_NAME in
  exists w1 w2,
    create_table postgres table_name w = (Ok "Success", w1)
    /\ create_table postgres table_name w1 = (Ok "Success", w2)
    /\ db w2 = db w1
    /\ (forall tbl, db w !! table_name = Some tbl -> db w1 = db w)
    /\ (db w !! table_name = None ->
        db w1 !! table_name
        = Some {| schema := ddl_schema; contents := DatetimeDates [] |})
    /\ (forall other, other <> table_name -> db w1 !! other = db w !! other).
Proof.
  intros table_name. destruct w as [tables out].
  eexists _, _. split; [apply create_table_postgres|].
  split; [apply create_table_postgres|]. simpl.
  destruct (tables !! table_name) as [tbl|] eqn:Hlookup.
  - rewrite Hlookup. repeat split; congruence.
  - rewrite lookup_insert_eq. split; [reflexivity|].
    split; [discriminate|]. split; [reflexivity|].
    intros other Hother. now apply lookup_insert_ne.
Qed.

Lemma create_table_keeps_existing_table_witness :
  exists w1,
    create_table postgres "daily_weather"
                 {| db := {[ "daily_weather" :=
                               {| schema := pandas_schema (DatetimeDates Samples.three_days);
                                  contents := DatetimeDates Samples.three_days |} ]};
                    printed := [] |}
    = (Ok "Success", w1)
    /\ db w1 = {[ "daily_weather" :=
                    {| schema := pandas_schema (DatetimeDates Samples.three_days);
                       contents := DatetimeDates Samples.three_days |} ]}.
Proof.
  destruct (create_table_keeps_existing_table
              {| db := {[ "daily_weather" :=
                            {| schema := pandas_schema (DatetimeDates Samples.three_days);
                               contents := DatetimeDates Samples.three_days |} ]};
                 printed := [] |})
    as (w1 & _ & Hrun & _ & _ & Hkeep & _).
  exists w1. split; [exact Hrun|].
  eapply Hkeep. apply lookup_singleton_eq.
Defined.

(** X8: over any engine, [create_table] returns a value only when the
    existence check, run on the state that the DDL attempt left, answered
    true; the value is "Success" and the state is the one the check left. *)
Theorem create_table_success_means_table_found
    {S : Type} (engine : Engine S) (table_name : string) (w w' : World S) (v : string) :
  create_table engine table_name w = (Ok v, w') ->
  v = "Success"
  /\ exists s2,
      select_exists engine table_name
        (snd (create_table_if_not_exists engine table_name ddl_schema (db w)))
      = (Ok true, s2)
      /\ db w' = s2.
Proof.
  run_gateway.
  destruct (create_table_if_not_exists engine table_name ddl_schema (db w))
    as [[[]|e] s1]; simpl;
    (destruct (select_exists engine table_name s1) as [[[|]|e'] s2]; simpl;
     [intros [= <- <-]; split; [reflexivity | now exists s2]
     | discriminate | discriminate]).
Qed.

Lemma create_table_success_means_table_found_witness :
  exists s2,
    select_exists (counting_stub 0) "daily_weather"
      (snd (create_table_if_not_exists (counting_stub 0) "daily_weather" ddl_schema 7))
    = (Ok true, s2)
    /\ s2 = 7.
Proof.
  edestruct (create_table_success_means_table_found
               (counting_stub 0) "daily_weather" {| db := 7; printed := [] |})
    as (_ & s2 & Hcheck & Hdb).
  - vm_compute. reflexivity.
  - exists s2. split; [exact Hcheck|]. rewrite <- Hdb. reflexivity.
Defined.

(** X9: on the reference engine, for the table of the script, [load_data]
    always returns "Success", needs no table to be there beforehand, and
    replaces the table wholesale: after two loads the database is the one
    that the second load alone would have left, the table holds exactly the
    rows of the second frame, and no other table is touched. *)
Theorem load_data_last_load_wins
    (df1 df2 : DataFrame) (w : World (gmap string Table)) :
  let table_name := Pipeline.TABLE_NAME in
  exists w1 w2 w2',
    load_data postgres df1 table_name w = (Ok "Success", w1)
    /\ load_data postgres df2 table_name w1 = (Ok "Success", w2)
    /\ load_data postgres df2 table_name w = (Ok "Success", w2')
    /\ db w2 = db w2'
    /\ (contents <$> db w2 !! table_name) = Some df2
    /\ select_count postgres table_name (db w2) = (Ok (Z.of_nat (len df2)), db w2)
    /\ (forall other, other <> table_name -> db w2 !! other = db w !! other).
Proof.
  intros table_name. destruct w as [tables out].
  eexists _, _, _. split; [apply load_data_postgres|].
  split; [apply load_data_postgres|].
  split; [apply load_data_postgres|]. simpl.
  rewrite insert_insert_eq.
  split; [reflexivity|]. split; [now rewrite lookup_insert_eq|].
  split; [now rewrite lookup_insert_eq|].
  intros other Hother. now apply lookup_insert_ne.
Qed.

Lemma load_data_last_load_wins_witness :
  exists w1 w2,
    load_data postgres (DatetimeDates Samples.five_days) "daily_weather"
              {| db := ∅; printed := [] |}
    = (Ok "Success", w1)
    /\ load_data postgres (DatetimeDates Samples.three_days) "daily_weather" w1
       = (Ok "Success", w2)
    /\ (contents <$> db w2 !! "daily_weather") = Some (DatetimeDates Samples.three_days)
    /\ db w2 !! "other" = (∅ : gmap string Table) !! "other".
Proof.
  destruct (load_data_last_load_wins
              (DatetimeDates Samples.five_days) (DatetimeDates Samples.three_days)
              {| db := ∅; printed := [] |})
    as (w1 & w2 & w2' & Hfirst & Hsecond & _ & _ & Htable & _ & Hothers).
  exists w1, w2. repeat split; try assumption.
  apply Hothers. discriminate.
Defined.

End GatewayMore.

(** ** Summary Reporter: any table, small tables, repeated calls *)

Module ReporterMore.
Import Frame FrameFacts Reporter ReporterFacts.

Lemma filter_partition_length {A : Type} (p : A -> bool) (l : list A) :
  List.length (List.filter (fun x => negb (p x)) l) + List.length (List.filter p l)
  = List.length l.
Proof.
  induction l as [|x l IH]; simpl; [reflexivity|].
  destruct (p x); simpl; lia.
Qed.

(** [nlargest] returns [n] rows, or all of them when there are fewer. *)
Lemma nlargest_length {A : Type} (key : A -> float) (n : nat) (l : list A) :
  List.length (nlargest key n l) = Nat.min n (List.length l).
Proof.
  unfold nlargest.
  rewrite length_take, length_app, sort_desc_length.
  now rewrite (filter_partition_length (fun r => isna (key r)) l).
Qed.

(** [nlargest] returns rows of the frame. *)
Lemma nlargest_In {A : Type} (key : A -> float) (n : nat) (l : list A) (x : A) :
  In x (nlargest key n l) -> In x l.
Proof.
  unfold nlargest. intros Hx.
  assert (Hall : In x (sort_desc key (List.filter (fun r => negb (isna (key r))) l)
                       ++ List.filter (fun r => isna (key r)) l)).
  { rewrite <- (firstn_skipn n). apply in_or_app. now left. }
  apply in_app_or in Hall as [Hsorted|Hnan].
  - apply (Permutation_in x (sort_desc_perm key _)) in Hsorted.
    now apply filter_In in Hsorted.
  - now apply filter_In in Hnan.
Qed.

Lemma drop_duplicates_from_In {A K : Type} `{EqDecision K} (key : A -> K)
    (l : list A) (x : A) :
  forall seen, In x (drop_duplicates_from key seen l) -> In x l.
Proof.
  induction l as [|y l IH]; intros seen; simpl; [tauto|].
  destruct (bool_decide _).
  - intros Hx. right. now apply (IH seen).
  - intros [->|Hx]; [now left | right; now apply (IH (key y :: seen))].
Qed.

(** The selected dates are dates of rows of the table. *)
Lemma top_dates_from_rows (rows : list (Row Timestamp)) (d : Timestamp) :
  In d (map top_date (nlargest top_temperature 3 (pooled rows))) ->
  exists r, In r rows /\ date r = d.
Proof.
  intros Hd. apply in_map_iff in Hd as (x & <- & Hx).
  apply nlargest_In in Hx. unfold pooled, drop_duplicates in Hx.
  apply drop_duplicates_from_In in Hx. unfold concat in Hx.
  apply in_app_or in Hx as [Hx|Hx]; apply in_map_iff in Hx as ([d' v] & <- & Hx).
  - unfold top_temp_dates in Hx. apply in_map_iff in Hx as (r & [= <- <-] & Hr).
    apply nlargest_In in Hr. now exists r.
  - unfold top_wind_dates in Hx. apply in_map_iff in Hx as (r & [= <- <-] & Hr).
    apply nlargest_In in Hr. now exists r.
Qed.

(** As many dates are selected as the table has rows, up to three. *)
Lemma top_dates_empty_iff (rows : list (Row Timestamp)) :
  nlargest top_temperature 3 (pooled rows) = [] <-> rows = [].
Proof.
  split.
  - intros Hnil. apply (f_equal (@List.length _)) in Hnil.
    rewrite nlargest_length in Hnil.
    destruct rows as [|r rows]; [reflexivity|exfalso].
    assert (Htemp : exists p ps, top_temp_dates (r :: rows) = p :: ps).
    { pose proof (nlargest_length temperature_2m_max 3 (r :: rows)) as Hlen.
      unfold top_temp_dates.
      destruct (nlargest temperature_2m_max 3 (r :: rows)) as [|x xs];
        [simpl in Hlen; lia | simpl; eauto]. }
    destruct Htemp as ([d v] & ps & Htemp).
    unfold pooled, drop_duplicates, concat in Hnil. rewrite Htemp in Hnil.
    simpl in Hnil. lia.
  - intros ->. reflexivity.
Qed.

(** X10: on any table with timestamp dates, whatever its values (missing
    ones included), [get_dates] does not raise, leaves the table as it was
    and returns at most three strings, none only for the empty table, each
    of them the formatted date of a row of the table. *)
Theorem get_dates_returns_at_most_three_dates_of_the_table
    (parse : string -> option Timestamp) (rows : list (Row Timestamp)) :
  exists formatted_dates,
    get_dates parse (DatetimeDates rows) = (Ok formatted_dates, DatetimeDates rows)
    /\ List.length formatted_dates <= 3
    /\ (formatted_dates = [] <-> rows = [])
    /\ Forall (fun s => exists r, In r rows /\ format_date (date r) = Ok s) formatted_dates.
Proof.
  set (top_dates := nlargest top_temperature 3 (pooled rows)).
  destruct (series_apply_ok format_date (map top_date top_dates) format_date_ok)
    as (formatted_dates & Happly & Hformat).
  exists formatted_dates. split; [|split; [|split]].
  - unfold get_dates. simpl. fold top_dates. now rewrite Happly.
  - apply Forall2_length in Hformat. rewrite <- Hformat, length_map.
    unfold top_dates. rewrite nlargest_length. lia.
  - rewrite <- (top_dates_empty_iff rows). fold top_dates.
    apply Forall2_length in Hformat. rewrite length_map in Hformat.
    split; intros H.
    + rewrite H in Hformat. now destruct top_dates.
    + rewrite H in Hformat. now destruct formatted_dates.
  - assert (Hfrom : forall d, In d (map top_date top_dates) ->
                              exists r, In r rows /\ date r = d)
      by apply top_dates_from_rows.
    clear Happly. induction Hformat as [|d s ds ss Hds _ IH]; constructor.
    + destruct (Hfrom d ltac:(now left)) as (r & Hr & <-). now exists r.
    + apply IH. intros d' Hd'. apply Hfrom. now right.
Qed.



Example get_dates_two_rows :
  fst (get_dates parse_iso_date
         (DatetimeDates [Samples.observation (Samples.midnight 2024 Sep 2) 25 40;
                         Samples.observation (Samples.midnight 2024 Sep 1) 30 5]))
  = Ok ["1 сентября 2024"; "2 сентября 2024"].
Proof. vm_compute. reflexivity. Qed.

(** X12: a second call of [get_dates] on the table that the first call left
    returns the same outcome and leaves that table as it is: the conversion
    of the date column happens once. *)
Theorem get_dates_again_changes_nothing
    (parse : string -> option Timestamp) (df : DataFrame) :
  get_dates parse (snd (get_dates parse df)) = get_dates parse df.
Proof.
  destruct df as [rows|rows]; [|reflexivity].
  unfold get_dates at 2 3. simpl.
  destruct (series_apply _ rows) as [rows'|e] eqn:Hparse; simpl.
  - reflexivity.
  - unfold get_dates. simpl. now rewrite Hparse.
Qed.

End ReporterMore.

(** ** Teardown Controller: which responses are accepted *)

Module TeardownMore.
Import PyStr Teardown Answers PyStrFacts.

Lemma lower_char_is_y (c : ascii) :
  Ascii.eqb (lower_char c) "y" = Ascii.eqb c "y" || Ascii.eqb c "Y".
Proof. destruct c as [[] [] [] [] [] [] [] []]; reflexivity. Qed.

Lemma lower_char_is_n (c : ascii) :
  Ascii.eqb (lower_char c) "n" = Ascii.eqb c "n" || Ascii.eqb c "N".
Proof. destruct c as [[] [] [] [] [] [] [] []]; reflexivity. Qed.

Lemma append_assoc (s t u : string) : (s +:+ t) +:+ u = s +:+ (t +:+ u).
Proof.
  induction s as [|c s IH]; [reflexivity|].
  now rewrite !append_cons, IH.
Qed.

Lemma append_nil_r (s : string) : s +:+ "" = s.
Proof.
  induction s as [|c s IH]; [reflexivity|].
  now rewrite append_cons, IH.
Qed.

Lemma text_cons (c : N) (cs : list N) : text (c :: cs) = utf8 c +:+ text cs.
Proof. reflexivity. Qed.

Lemma isspace_iff (ch : string) :
  isspace ch = true <-> exists c, In c whitespace /\ ch = utf8 c.
Proof.
  unfold isspace. rewrite existsb_exists.
  split; intros (c & Hc & H); exists c; (split; [exact Hc|]);
    now apply String.eqb_eq.
Qed.

(** No whitespace character begins with the byte of an answer. *)
Lemma isspace_answer (c : ascii) (s : string) :
  (c = "y" \/ c = "Y" \/ c = "n" \/ c = "N")%char -> isspace (String c s) = false.
Proof. intros [->|[->|[->| ->]]]; vm_compute; reflexivity. Qed.

Lemma lstrip_eq (s : string) :
  lstrip s
  = match s with
    | EmptyString => EmptyString
    | String a s1 =>
        if isspace (String a "") then lstrip s1
        else match s1 with
             | String b s2 =>
                 if isspace (String a (String b "")) then lstrip s2
                 else match s2 with
                      | String c s3 =>
                          if isspace (String a (String b (String c ""))) then lstrip s3
                          else s
                      | EmptyString => s
                      end
             | EmptyString => s
             end
    end.
Proof. destruct s; reflexivity. Qed.

Lemma lstrip_1 (a : ascii) (s : string) :
  isspace (String a "") = true -> lstrip (String a s) = lstrip s.
Proof. intros H. rewrite lstrip_eq at 1. now rewrite H. Qed.

Lemma lstrip_2 (a b : ascii) (s : string) :
  isspace (String a "") = false ->
  isspace (String a (String b "")) = true ->
  lstrip (String a (String b s)) = lstrip s.
Proof. intros H1 H2. rewrite lstrip_eq at 1. now rewrite H1, H2. Qed.

Lemma lstrip_3 (a b c : ascii) (s : string) :
  isspace (String a "") = false ->
  isspace (String a (String b "")) = false ->
  isspace (String a (String b (String c ""))) = true ->
  lstrip (String a (String b (String c s))) = lstrip s.
Proof. intros H1 H2 H3. rewrite lstrip_eq at 1. now rewrite H1, H2, H3. Qed.

Lemma rstrip_1 (a : ascii) (t : string) :
  rstrip t = "" -> isspace (String a "") = true -> rstrip (String a t) = "".
Proof. intros Ht H. cbn [rstrip]. rewrite Ht. cbv zeta. now rewrite H. Qed.

Lemma rstrip_2 (a b : ascii) (t : string) :
  rstrip t = "" ->
  isspace (String b "") = false ->
  isspace (String a (String b "")) = true ->
  rstrip (String a (String b t)) = "".
Proof.
  intros Ht H1 H2. cbn [rstrip]. rewrite Ht. cbv zeta. rewrite H1. now rewrite H2.
Qed.

Lemma rstrip_3 (a b c : ascii) (t : string) :
  rstrip t = "" ->
  isspace (String c "") = false ->
  isspace (String b (String c "")) = false ->
  isspace (String a (String b (String c ""))) = true ->
  rstrip (String a (String b (String c t))) = "".
Proof.
  intros Ht H1 H2 H3. cbn [rstrip]. rewrite Ht. cbv zeta.
  rewrite H1. rewrite H2. now rewrite H3.
Qed.

(** Each whitespace character, written out in bytes, is removed by [lstrip]
    at the head and by [rstrip] at the end. *)
Ltac whitespace_bytes tac1 tac2 tac3 :=
  match goal with
  | |- context [utf8 ?c] =>
      let u := eval vm_compute in (utf8 c) in
      lazymatch u with
      | String ?a EmptyString => tac1 a
      | String ?a (String ?b EmptyString) => tac2 a b
      | String ?a (String ?b (String ?c' EmptyString)) => tac3 a b c'
      end
  end.

Lemma lstrip_whitespace (c : N) (s : string) :
  In c whitespace -> lstrip (utf8 c +:+ s) = lstrip s.
Proof.
  intros Hc. unfold whitespace in Hc. simpl in Hc.
  repeat (destruct Hc as [<-|Hc];
          [whitespace_bytes
             ltac:(fun a => exact (lstrip_1 a s eq_refl))
             ltac:(fun a b => exact (lstrip_2 a b s eq_refl eq_refl))
             ltac:(fun a b c => exact (lstrip_3 a b c s eq_refl eq_refl eq_refl))|]).
  destruct Hc.
Qed.

Lemma rstrip_whitespace (c : N) (t : string) :
  In c whitespace -> rstrip t = "" -> rstrip (utf8 c +:+ t) = "".
Proof.
  intros Hc Ht. unfold whitespace in Hc. simpl in Hc.
  repeat (destruct Hc as [<-|Hc];
          [whitespace_bytes
             ltac:(fun a => exact (rstrip_1 a t Ht eq_refl))
             ltac:(fun a b => exact (rstrip_2 a b t Ht eq_refl eq_refl))
             ltac:(fun a b c => exact (rstrip_3 a b c t Ht eq_refl eq_refl eq_refl))|]).
  destruct Hc.
Qed.

Lemma lstrip_text (cs : list N) (s : string) :
  Forall (fun c => In c whitespace) cs -> lstrip (text cs +:+ s) = lstrip s.
Proof.
  induction 1 as [|c cs Hc _ IH]; [reflexivity|].
  rewrite text_cons, append_assoc, lstrip_whitespace by assumption. exact IH.
Qed.

Lemma rstrip_text (cs : list N) :
  Forall (fun c => In c whitespace) cs -> rstrip (text cs) = "".
Proof.
  induction 1 as [|c cs Hc _ IH]; [reflexivity|].
  rewrite text_cons. now apply rstrip_whitespace.
Qed.

(** [lstrip] takes a padding off the head of the line. *)
Lemma lstrip_spec (s : string) : exists before, padding before /\ s = before +:+ lstrip s.
Proof.
  remember (String.length s) as n eqn:Hn. revert s Hn.
  induction n as [n IH] using lt_wf_ind. intros s ->.
  assert (Hstep : forall ch rest,
             isspace ch = true -> s = ch +:+ rest ->
             String.length rest < String.length s ->
             exists before, padding before /\ s = before +:+ lstrip rest).
  { intros ch rest Hch -> Hlt.
    apply isspace_iff in Hch as (c & Hc & ->).
    destruct (IH _ Hlt rest eq_refl) as (before & (cs & Hcs & ->) & Hrest).
    exists (text (c :: cs)). split; [exists (c :: cs); split; [now constructor | reflexivity]|].
    rewrite text_cons, append_assoc. now rewrite <- Hrest. }
  assert (Hstop : exists before, padding before /\ s = before +:+ s).
  { exists "". split; [exists []; split; [constructor | reflexivity] | reflexivity]. }
  rewrite lstrip_eq. destruct s as [|a [|b [|c s3]]]; try exact Hstop.
  - destruct (isspace (String a "")) eqn:H1; [|exact Hstop].
    apply (Hstep (String a "") ""); [assumption | reflexivity | simpl; lia].
  - destruct (isspace (String a "")) eqn:H1.
    { apply (Hstep (String a "") (String b "")); [assumption | reflexivity | simpl; lia]. }
    destruct (isspace (String a (String b ""))) eqn:H2; [|exact Hstop].
    apply (Hstep (String a (String b "")) ""); [assumption | reflexivity | simpl; lia].
  - destruct (isspace (String a "")) eqn:H1.
    { apply (Hstep (String a "") (String b (String c s3)));
        [assumption | reflexivity | simpl; lia]. }
    destruct (isspace (String a (String b ""))) eqn:H2.
    { apply (Hstep (String a (String b "")) (String c s3));
        [assumption | reflexivity | simpl; lia]. }
    destruct (isspace (String a (String b (String c "")))) eqn:H3; [|exact Hstop].
    apply (Hstep (String a (String b (String c ""))) s3);
      [assumption | reflexivity | simpl; lia].
Qed.

(** [rstrip] takes a padding off the end of the line. *)
Lemma rstrip_spec (s : string) : exists after, padding after /\ s = rstrip s +:+ after.
Proof.
  induction s as [|c s (after & (cs & Hcs & ->) & Hs)].
  - exists "". split; [exists []; split; [constructor | reflexivity] | reflexivity].
  - cbn [rstrip]. cbv zeta.
    destruct (isspace (String c (rstrip s))) eqn:Hc.
    + apply isspace_iff in Hc as (w & Hw & Hc).
      exists (text (w :: cs)). split; [exists (w :: cs); split; [now constructor | reflexivity]|].
      rewrite text_cons, <- Hc, append_cons, <- Hs. reflexivity.
    + exists (text cs). split; [now exists cs|].
      rewrite append_cons, <- Hs. reflexivity.
Qed.

(** An answer is not whitespace: [lstrip] stops at it and [rstrip] keeps it. *)
Lemma lstrip_answer (c : ascii) (s : string) :
  (c = "y" \/ c = "Y" \/ c = "n" \/ c = "N")%char -> lstrip (String c s) = String c s.
Proof.
  intros Hc. rewrite lstrip_eq.
  rewrite (isspace_answer c "" Hc).
  destruct s as [|b [|c' s3]]; [reflexivity| |].
  - now rewrite (isspace_answer c _ Hc).
  - now rewrite !(isspace_answer c _ Hc).
Qed.

Lemma rstrip_answer (c : ascii) (cs : list N) :
  (c = "y" \/ c = "Y" \/ c = "n" \/ c = "N")%char ->
  Forall (fun c => In c whitespace) cs ->
  rstrip (String c (text cs)) = String c "".
Proof.
  intros Hc Hcs. cbn [rstrip]. rewrite rstrip_text by assumption. cbv zeta.
  now rewrite (isspace_answer c _ Hc).
Qed.

Lemma lower_single_inv (s : string) (a : ascii) :
  lower s = String a "" <-> exists c, s = String c "" /\ lower_char c = a.
Proof.
  split.
  - destruct s as [|c [|d s]]; simpl; try discriminate.
    intros [= <-]. now exists c.
  - now intros (c & -> & <-).
Qed.

Lemma lower_char_answer (c : ascii) :
  (lower_char c = "y" \/ lower_char c = "n")%char
  <-> (c = "y" \/ c = "Y" \/ c = "n" \/ c = "N")%char.
Proof.
  rewrite <- !Ascii.eqb_eq, lower_char_is_y, lower_char_is_n, !orb_true_iff.
  tauto.
Qed.

(** X13: [ask_user] accepts a response exactly when it is one of the
    characters y, Y, n, N with nothing but whitespace characters, those of
    [str.isspace], before and after it. *)
Theorem ask_user_accepts_exactly_padded_y_or_n (line : string) :
  is_answer (normalize line) = true
  <-> exists before c after,
      line = before +:+ String c after
      /\ padding before
      /\ padding after
      /\ (c = "y" \/ c = "Y" \/ c = "n" \/ c = "N")%char.
Proof.
  unfold normalize, strip. rewrite TeardownFacts.is_answer_spec. split.
  - intros H.
    assert (Hc : exists c, rstrip (lstrip line) = String c ""
                           /\ (lower_char c = "y" \/ lower_char c = "n")%char).
    { destruct H as [H|H]; apply lower_single_inv in H as (c & Hstrip & Hc);
        exists c; tauto. }
    destruct Hc as (c & Hstrip & Hc). apply lower_char_answer in Hc.
    destruct (lstrip_spec line) as (before & Hbefore & Hline).
    destruct (rstrip_spec (lstrip line)) as (after & Hafter & Hrest).
    rewrite Hstrip, append_cons, append_nil_l in Hrest.
    exists before, c, after. rewrite <- Hrest. tauto.
  - intros (before & c & after & -> & (cs1 & Hcs1 & ->) & (cs2 & Hcs2 & ->) & Hc).
    rewrite lstrip_text, lstrip_answer, rstrip_answer by assumption.
    destruct Hc as [->|[->|[->| ->]]]; simpl; tauto.
Qed.

End TeardownMore.

(** ** The main block: order of the stages and the teardown *)

Module PipelineFacts.
Import Frame Launcher LauncherTrace LauncherOutcomes Pipeline.

Lemma loop_events_never_run_down (rest : trace) :
  forallb is_loop_event rest = true -> ~ In (Run compose_down_argv) rest.
Proof.
  induction rest as [|e rest IH]; simpl; [tauto|].
  intros H. apply andb_true_iff in H as [He Hrest].
  intros [->|Hin]; [discriminate He | now apply IH].
Qed.

(** [launch_container] never runs [docker-compose down]. *)
Lemma launch_container_never_runs_down
    (runtime : Runtime) (fuel : nat)
    (container_name db_name db_user db_password db_port db_port_a : string)
    (t t' : trace) (r : result string) :
  launch_container runtime fuel container_name db_name db_user db_password
                   db_port db_port_a t
  = Some (r, t') ->
  In (Run compose_down_argv) t' -> In (Run compose_down_argv) t.
Proof.
  intros Hrun Hin.
  apply launch_container_inv in Hrun as [(e & _ & _ & ->)|(out & _ & Hpoll)].
  - apply in_app_or in Hin as [Hin|[Hin|[Hin|[Hin|[]]]]]; [assumption|discriminate..].
  - apply poll_outcome in Hpoll as (c & rest & -> & Hloop & _).
    apply in_app_or in Hin as [Hin|Hin].
    + apply in_app_or in Hin as [Hin|Hin]; [assumption|].
      simpl in Hin. destruct Hin as [Hin|[Hin|[Hin|[Hin|[Hin|[]]]]]]; discriminate.
    + now apply loop_events_never_run_down in Hin.
Qed.

Section WithEnvironment.
Context {S : Type}.
Variable runtime : Runtime.
Variable engine : Gateway.Engine S.
Variable parse : string -> option Timestamp.

(** X14: the end of the main block runs [docker-compose down] exactly when
    [ask_user] returned "y"; on "n", or when the console runs dry, nothing
    is run; the database is not touched either way. *)
Theorem teardown_runs_compose_down_iff_answer_is_y (w : World S) :
  let answer := fst (Teardown.ask_user (console w)) in
  let w' := snd (teardown runtime w) in
  (answer = Ok "y" ->
   os w' = os w ++ [Run compose_down_argv]
   /\ fst (teardown runtime w)
      = match runtime (count_runs (os w)) compose_down_argv with
        | Ok _ => Ok tt
        | Raise e => Raise e
        end)
  /\ (answer <> Ok "y" -> os w' = os w)
  /\ (forall e, answer = Raise e -> fst (teardown runtime w) = Raise e)
  /\ database w' = database w
  /\ console w' = snd (Teardown.ask_user (console w)).
Proof.
  unfold teardown, subprocess_run, say. simpl.
  destruct (Teardown.ask_user (console w)) as [[user_answer|e] c]; simpl.
  - destruct (String.eqb user_answer "y") eqn:Hy; simpl.
    + apply String.eqb_eq in Hy as ->.
      destruct (runtime (count_runs (os w)) compose_down_argv); simpl;
        repeat split; congruence.
    + apply String.eqb_neq in Hy.
      repeat split; congruence.
  - repeat split; congruence.
Qed.

Lemma teardown_down_inv (w : World S) :
  In (Run compose_down_argv) (os (snd (teardown runtime w))) ->
  In (Run compose_down_argv) (os w)
  \/ fst (Teardown.ask_user (console w)) = Ok "y".
Proof.
  unfold teardown, subprocess_run, say. simpl.
  destruct (Teardown.ask_user (console w)) as [[user_answer|e] c]; simpl.
  - destruct (String.eqb user_answer "y") eqn:Hy; simpl.
    + apply String.eqb_eq in Hy as ->. now right.
    + now left.
  - now left.
Qed.

Lemma teardown_database (w : World S) :
  database (snd (teardown runtime w)) = database w.
Proof.
  unfold teardown, subprocess_run, say. simpl.
  destruct (Teardown.ask_user (console w)) as [[user_answer|e] c]; simpl;
    [destruct (String.eqb user_answer "y"); simpl;
     [destruct (runtime _ _)|]|]; reflexivity.
Qed.

(** X15: the run ends with [docker-compose down] only if every stage before
    it succeeded and the user answered "y": the data was fetched, the
    container was confirmed running, [create_table] and [load_data] returned,
    [get_dates] returned, and [ask_user] returned "y".  After a failure at
    any stage the container is left as it is. *)
Theorem main_tears_down_only_after_every_stage_succeeded
    (fetched : result DataFrame) (fuel : nat) (w w' : World S) (r : result unit) :
  main runtime engine parse fetched fuel w = Some (r, w') ->
  ~ In (Run compose_down_argv) (os w) ->
  In (Run compose_down_argv) (os w') ->
  exists df t v1 g v2 g' formatted_dates,
    fetched = Ok df
    /\ launch_container runtime fuel CONTAINER_NAME DB_NAME DB_USER DB_PASSWORD
                        DB_PORT BD_PORT_A (os w)
       = Some (Ok "Success", t)
    /\ Gateway.create_table engine TABLE_NAME (database w) = (Ok v1, g)
    /\ Gateway.load_data engine df TABLE_NAME g = (Ok v2, g')
    /\ fst (Reporter.get_dates parse df) = Ok formatted_dates
    /\ fst (Teardown.ask_user (console w)) = Ok "y"
    /\ database w' = g'.
Proof.
  unfold main. intros Hmain Hclean Hdown.
  destruct fetched as [df|e]; [|injection Hmain as <- <-; contradiction].
  cbn [say os database console log] in Hmain.
  destruct (launch_container runtime fuel CONTAINER_NAME DB_NAME DB_USER DB_PASSWORD
              DB_PORT BD_PORT_A (os w)) as [[[v|e] t]|] eqn:Hlaunch; [| |discriminate].
  2: { injection Hmain as <- <-. simpl in Hdown.
       now apply (launch_container_never_runs_down _ _ _ _ _ _ _ _ _ _ _ Hlaunch) in Hdown. }
  assert (Ht : ~ In (Run compose_down_argv) t).
  { intros Hin.
    now apply (launch_container_never_runs_down _ _ _ _ _ _ _ _ _ _ _ Hlaunch) in Hin. }
  assert (v = "Success") as ->.
  { apply launch_container_inv in Hlaunch as [(e & _ & [=] & _)|(out & _ & Hpoll)].
    apply poll_outcome in Hpoll as (c & rest & _ & _ & _ & _ & _ & Hend).
    destruct Hend as [([= ->] & _)|[(e & before & [=] & _)|([=] & _)]]. reflexivity. }
  destruct (Gateway.create_table engine TABLE_NAME (database w)) as [[v1|e] g] eqn:Hcreate;
    [|injection Hmain as <- <-; contradiction].
  destruct (Gateway.load_data engine df TABLE_NAME g) as [[v2|e] g'] eqn:Hload;
    [|injection Hmain as <- <-; contradiction].
  injection Hmain as Hmain. unfold report_and_teardown in Hmain.
  cbn [say os database console log] in Hmain.
  destruct (Reporter.get_dates parse df) as [[formatted_dates|e] df'] eqn:Hdates;
    [|injection Hmain as <- <-; contradiction].
  match type of Hmain with
  | teardown _ ?w0 = _ =>
      assert (Hsnd : snd (teardown runtime w0) = w') by now rewrite Hmain
  end.
  rewrite <- Hsnd in Hdown |- *.
  apply teardown_down_inv in Hdown as [Hdown|Hanswer]; [contradiction|].
  rewrite teardown_database.
  exists df, t, v1, g, v2, g', formatted_dates.
  do 3 (split; [reflexivity|]).
  split; [exact Hload|]. split; [now rewrite Hdates|].
  split; [exact Hanswer | reflexivity].
Qed.


End WithEnvironment.

Lemma teardown_runs_compose_down_iff_answer_is_y_witness :
  os (snd (teardown Scenarios.docker_ready (Scenarios.fresh_world [" Y "])))
  = [Run compose_down_argv].
Proof.
  destruct (teardown_runs_compose_down_iff_answer_is_y
              Scenarios.docker_ready (Scenarios.fresh_world [" Y "])) as [Hy _].
  apply Hy. vm_compute. reflexivity.
Defined.

Lemma main_tears_down_only_after_every_stage_succeeded_witness :
  fst (Teardown.ask_user (console (Scenarios.fresh_world [" Y "]))) = Ok "y".
Proof.
  edestruct (main_tears_down_only_after_every_stage_succeeded
               Scenarios.docker_ready (Gateway.counting_stub 0) Reporter.parse_iso_date
               (Ok (DatetimeDates Samples.three_days)) 3 (Scenarios.fresh_world [" Y "]))
    as (df & t & v1 & g & v2 & g' & formatted_dates & _ & _ & _ & _ & _ & Hanswer & _).
  - vm_compute. reflexivity.
  - intros [].
  - vm_compute. repeat (first [left; reflexivity | right]).
  - exact Hanswer.
Defined.


End PipelineFacts.

(** ** Environment Bootstrapper *)

Module SetupFacts.
Import Setup.

Lemma count_execs_app (l l' : list action) :
  count_execs (l ++ l') = count_execs l + count_execs l'.
Proof. unfold count_execs. now rewrite List.filter_app, length_app. Qed.

(** The actions that a run added to the machine. *)
Lemma new_actions (old new : list action) :
  skipn (List.length old) (old ++ new) = new.
Proof. apply drop_app_length. Qed.

Section WithHost.
Variable host : Host.

Local Abbreviation py := (venv_python host).
Local Abbreviation pip_upgrade := [py; "-m"; "pip"; "install"; "--upgrade"; "pip"].
Local Abbreviation pip_install := [py; "-m"; "pip"; "install"; "-r"; "requirements.txt"].
Local Abbreviation run_script := [py; "main_script.py"].

(** The script from [install_requirements] on: the two [pip] commands, then
    the main script, each run only if the one before it succeeded. *)
Lemma install_and_run (m : Machine) :
  let n0 := count_execs (done m) in
  let outcome :=
    match install_requirements host py m with
    | (Raise e, m1) => (Raise e, m1)
    | (Ok _, m1) =>
        match subprocess_run host run_script
                (say "Запуск основного скрипта внутри виртуального окружения..." m1) with
        | (Raise e, m2) => (Raise e, m2)
        | (Ok _, m2) => (Ok tt, m2)
        end
    end in
  paths (snd outcome) = paths m
  /\ exists rest,
      done (snd outcome) = done m ++ rest
      /\ (forall p, ~ In (CreateVenv p) rest)
      /\ match run host n0 pip_upgrade, run host (n0 + 1) pip_install,
               run host (n0 + 2) run_script with
         | Raise e, _, _ =>
             fst outcome = Raise e /\ List.filter is_exec rest = [Exec pip_upgrade]
         | Ok _, Raise e, _ =>
             fst outcome = Raise e
             /\ List.filter is_exec rest = [Exec pip_upgrade; Exec pip_install]
         | Ok _, Ok _, Raise e =>
             fst outcome = Raise e
             /\ List.filter is_exec rest
                = [Exec pip_upgrade; Exec pip_install; Exec run_script]
         | Ok _, Ok _, Ok _ =>
             fst outcome = Ok tt
             /\ List.filter is_exec rest
                = [Exec pip_upgrade; Exec pip_install; Exec run_script]
         end.
Proof.
  intros n0 outcome. subst outcome.
  assert (Hsay : forall l s, count_execs (l ++ [Say s]) = count_execs l).
  { intros l s. rewrite count_execs_app. change (count_execs [Say s]) with 0. lia. }
  assert (Hexec : forall l a, count_execs (l ++ [Exec a]) = count_execs l + 1).
  { intros l a. now rewrite count_execs_app. }
  unfold install_requirements, subprocess_run, say.
  cbn [paths done fst snd].
  rewrite Hsay. fold n0.
  destruct (run host n0 pip_upgrade) as [out1|e1]; cbn [paths done fst snd].
  - rewrite Hexec, Hsay. fold n0.
    destruct (run host (n0 + 1) pip_install) as [out2|e2]; cbn [paths done fst snd].
    + rewrite Hsay, Hsay, Hexec, Hexec, Hsay. fold n0.
      replace (n0 + 1 + 1) with (n0 + 2) by lia.
      destruct (run host (n0 + 2) run_script) as [out3|e3]; cbn [paths done fst snd];
        (split; [reflexivity|]; eexists; split;
         [rewrite <- !app_assoc; reflexivity|];
         split; [simpl; intros p H; intuition discriminate | now split]).
    + split; [reflexivity|]. eexists. split; [rewrite <- !app_assoc; reflexivity|].
      split; [simpl; intros p H; intuition discriminate | now split].
  - split; [reflexivity|]. eexists. split; [rewrite <- !app_assoc; reflexivity|].
    split; [simpl; intros p H; intuition discriminate | now split].
Qed.

(** With the directory of the environment there, the script creates
    nothing and adds no path. *)
Lemma main_reuses_environment (m : Machine) :
  VENV_DIR ∈ paths m ->
  (forall p, ~ In (CreateVenv p) (skipn (List.length (done m)) (done (snd (main host m)))))
  /\ paths (snd (main host m)) = paths m.
Proof.
  intros Hin. unfold main. rewrite bool_decide_eq_true_2 by assumption.
  destruct (install_and_run m) as (Hpaths & rest & Hdone & Hnone & _).
  fold py in *.
  destruct (install_requirements host py m) as [[[]|e] m1];
    [destruct (subprocess_run host run_script _) as [[out|e] m2]|];
    cbn [fst snd] in *; rewrite Hdone, new_actions; now split.
Qed.

(** X17: the environment is created only when its directory is missing, and
    then before anything else is run; an existing directory is reused and no
    path is added.  If the creation fails the script ends with that error
    and runs no command; the directory is there afterwards if the failed
    creation had made it, and then a second run of the script does not
    create the environment again. *)
Theorem setup_creates_the_environment_only_when_missing (m : Machine) :
  let m' := snd (main host m) in
  let new := skipn (List.length (done m)) (done m') in
  (VENV_DIR ∈ paths m ->
   (forall p, ~ In (CreateVenv p) new) /\ paths m' = paths m)
  /\ (VENV_DIR ∉ paths m ->
      exists msg rest,
        new = Say msg :: CreateVenv VENV_DIR :: rest
        /\ (forall p, ~ In (CreateVenv p) rest)
        /\ (forall e, venv_create host VENV_DIR = Raise e ->
                      fst (main host m) = Raise e
                      /\ rest = []
                      /\ paths m' = if venv_leftover host VENV_DIR
                                    then {[VENV_DIR]} ∪ paths m else paths m)
        /\ (is_ok (venv_create host VENV_DIR) = true ->
            paths m' = {[VENV_DIR]} ∪ paths m))
  /\ (forall e,
         venv_create host VENV_DIR = Raise e ->
         venv_leftover host VENV_DIR = true ->
         forall p,
           ~ In (CreateVenv p)
                (skipn (List.length (done m')) (done (snd (main host m'))))).
Proof.
  intros m' new.
  assert (Hmissing :
            VENV_DIR ∉ paths m ->
            forall e, venv_create host VENV_DIR = Raise e ->
                      paths m' = if venv_leftover host VENV_DIR
                                 then {[VENV_DIR]} ∪ paths m else paths m).
  { intros Hout e He. subst m'. unfold main.
    rewrite bool_decide_eq_false_2 by assumption.
    unfold create_virtualenv, say. cbn [paths done]. now rewrite He. }
  split; [|split].
  - apply main_reuses_environment.
  - intros Hout. clear Hmissing. subst new m'. unfold main.
    rewrite bool_decide_eq_false_2 by assumption.
    unfold create_virtualenv, say. cbn [paths done].
    destruct (venv_create host VENV_DIR) as [[]|e] eqn:Hcreate.
    + match goal with
      | |- context [install_requirements host _ ?m0] =>
          destruct (install_and_run m0) as (Hpaths & rest & Hdone & Hnone & _)
      end.
      fold py in *. cbn [paths done] in *.
      eexists _, (Say _ :: rest).
      destruct (install_requirements host py _) as [[[]|e] m1];
        [destruct (subprocess_run host run_script _) as [[out|e] m2]|];
        cbn [fst snd] in *; rewrite Hdone, <- !app_assoc, new_actions;
        (split; [reflexivity|]);
        (split; [intros p [H|H]; [discriminate | now apply (Hnone p)]|]);
        (split; [discriminate | intros _; exact Hpaths]).
    + eexists _, []. cbn [fst snd paths done].
      rewrite <- !app_assoc, new_actions.
      split; [reflexivity|]. split; [intros p []|].
      split; [|discriminate].
      intros e' [= <-]. now repeat split.
  - intros e He Hleft. apply main_reuses_environment.
    destruct (decide (VENV_DIR ∈ paths m)) as [Hin|Hout].
    + subst m'. now rewrite (proj2 (main_reuses_environment m Hin)).
    + pose proof (Hmissing Hout e He) as Hpaths. rewrite Hleft in Hpaths.
      rewrite Hpaths. apply elem_of_union. left. now apply elem_of_singleton.
Qed.

(** X18: once the environment is there, the script runs [pip install
    --upgrade pip], [pip install -r requirements.txt] and [main_script.py]
    with the interpreter of the environment, in this order, each only if the
    one before it succeeded; the first failure is the outcome of the script,
    and it succeeds only if all three did. *)
Theorem setup_runs_each_command_only_after_the_previous_succeeded (m : Machine) :
  VENV_DIR ∈ paths m \/ is_ok (venv_create host VENV_DIR) = true ->
  let n0 := count_execs (done m) in
  let new := skipn (List.length (done m)) (done (snd (main host m))) in
  match run host n0 pip_upgrade, run host (n0 + 1) pip_install,
        run host (n0 + 2) run_script with
  | Raise e, _, _ =>
      fst (main host m) = Raise e /\ List.filter is_exec new = [Exec pip_upgrade]
  | Ok _, Raise e, _ =>
      fst (main host m) = Raise e
      /\ List.filter is_exec new = [Exec pip_upgrade; Exec pip_install]
  | Ok _, Ok _, Raise e =>
      fst (main host m) = Raise e
      /\ List.filter is_exec new = [Exec pip_upgrade; Exec pip_install; Exec run_script]
  | Ok _, Ok _, Ok _ =>
      fst (main host m) = Ok tt
      /\ List.filter is_exec new = [Exec pip_upgrade; Exec pip_install; Exec run_script]
  end.
Proof.
  intros Hready n0 new. subst new. unfold main.
  destruct (decide (VENV_DIR ∈ paths m)) as [Hin|Hout].
  - rewrite bool_decide_eq_true_2 by assumption.
    destruct (install_and_run m) as (_ & rest & Hdone & _ & Htable).
    fold n0 in Htable. cbv beta iota zeta.
    match type of Hdone with
    | done (snd ?o) = _ => set (outcome := o) in *
    end.
    rewrite Hdone, new_actions. exact Htable.
  - rewrite bool_decide_eq_false_2 by assumption.
    destruct Hready as [Hin|Hok]; [contradiction|].
    unfold create_virtualenv, say. cbn [paths done].
    destruct (venv_create host VENV_DIR) as [[]|e]; [|discriminate].
    match goal with
    | |- context [install_requirements host _ ?m0] =>
        destruct (install_and_run m0) as (_ & rest & Hdone & _ & Htable)
    end.
    unfold say in Hdone, Htable. cbn [paths done] in Hdone, Htable.
    rewrite !count_execs_app in Htable.
    change (count_execs [Say _]) with 0 in Htable.
    change (count_execs [CreateVenv _]) with 0 in Htable.
    rewrite !Nat.add_0_r in Htable. fold n0 in Htable.
    cbv beta iota zeta.
    match type of Hdone with
    | done (snd ?o) = _ => set (outcome := o) in *
    end.
    rewrite Hdone, <- !app_assoc, new_actions.
    exact Htable.
Qed.

End WithHost.

(** The creation fails on a new machine after the directory was made: the
    directory is there, and the next run creates nothing. *)
Lemma setup_creates_the_environment_only_when_missing_witness :
  let m' := snd (main Scenarios.no_pip_host Scenarios.new_machine) in
  fst (main Scenarios.no_pip_host Scenarios.new_machine) = Raise (CalledProcessError 1)
  /\ paths m' = {[VENV_DIR]} ∪ ∅
  /\ forall p,
       ~ In (CreateVenv p)
            (skipn (List.length (done m')) (done (snd (main Scenarios.no_pip_host m')))).
Proof.
  intros m'.
  destruct (setup_creates_the_environment_only_when_missing
              Scenarios.no_pip_host Scenarios.new_machine) as (_ & Hmissing & Hagain).
  destruct (Hmissing (not_elem_of_empty _)) as (msg & rest & _ & _ & Hfail & _).
  destruct (Hfail _ eq_refl) as (Hraise & _ & Hpaths).
  split; [exact Hraise|]. split; [exact Hpaths|].
  exact (Hagain _ eq_refl eq_refl).
Defined.

Lemma setup_runs_each_command_only_after_the_previous_succeeded_witness :
  fst (main Scenarios.offline_host Scenarios.new_machine) = Raise (CalledProcessError 1)
  /\ List.filter is_exec
       (skipn 0 (done (snd (main Scenarios.offline_host Scenarios.new_machine))))
     = [Exec ["test_task_venv/bin/python"; "-m"; "pip"; "install"; "--upgrade"; "pip"];
        Exec ["test_task_venv/bin/python"; "-m"; "pip"; "install"; "-r";
              "requirements.txt"]].
Proof.
  exact (setup_runs_each_command_only_after_the_previous_succeeded
           Scenarios.offline_host Scenarios.new_machine (or_intror eq_refl)).
Defined.

End SetupFacts.
